(** * Log analyzer (homework_01/log_analyzer.py): a shallow embedding

    The Python module parses nginx access-log lines, accumulates the request
    times per URL and builds a report of the URLs with the largest total
    time.  Every function of the module is translated below, under the name
    it has in the source:

    - Python [float] is IEEE binary64, i.e. Rocq's primitive [float];
    - Python [int] is unbounded: [Z], and [nat] for lengths and counters;
    - [str] and [bytes] are both [string], a sequence of 8-bit characters
      (for a [str] the code points below 256), told apart by the
      constructors of [pyline];
    - a [dict] is an association list in insertion order, the order in which
      Python iterates it;
    - exceptions are the [Raise] outcome of [result]; functions that log,
      touch the file system or read the module-level [config] run in a state
      monad over [world]; [generate_report] runs in a state monad over the
      objects it is handed. *)

From Stdlib Require Import ZArith List Bool Lia String Ascii Floats.
From Stdlib Require Import Permutation Sorted.
Import ListNotations.

Set Warnings "-inexact-float".
Local Open Scope string_scope.
Local Open Scope list_scope.

(** ** Exceptions and outcomes *)

Inductive exn : Type :=
| IndexError
| ValueError
| TypeError
| ZeroDivisionError
| FileNotFoundError
| JSONDecodeError
| OSError
| IsADirectoryError
| NotADirectoryError
| PermissionError
| RuntimeError (msg : string).

Inductive result (A : Type) : Type :=
| Return (a : A)
| Raise (e : exn).
Arguments Return {A} a.
Arguments Raise {A} e.

Definition raises {A} (r : result A) : bool :=
  match r with Return _ => false | Raise _ => true end.

(** State-and-exception monad: a raised exception keeps the state reached
    so far, as in Python. *)
Module St.
Definition M (S A : Type) : Type := S -> result A * S.

Definition ret {S A} (a : A) : M S A := fun s => (Return a, s).
Definition throw {S A} (e : exn) : M S A := fun s => (Raise e, s).
Definition bind {S A B} (m : M S A) (k : A -> M S B) : M S B :=
  fun s => match m s with
           | (Return a, s') => k a s'
           | (Raise e, s') => (Raise e, s')
           end.
Definition get {S} : M S S := fun s => (Return s, s).
Definition gets {S A} (f : S -> A) : M S A := fun s => (Return (f s), s).
Definition modify {S} (f : S -> S) : M S unit := fun s => (Return tt, f s).
Definition lift {S A} (r : result A) : M S A := fun s => (r, s).
End St.

Declare Scope py_scope.
Delimit Scope py_scope with py.
Notation "x <- m ;; k" := (St.bind m (fun x => k))
  (at level 61, m at next level, right associativity) : py_scope.
Notation "m ;;; k" := (St.bind m (fun _ => k))
  (at level 61, right associativity) : py_scope.
Notation "' pat <- m ;; k" := (St.bind m (fun x => match x with pat => k end))
  (at level 61, pat pattern, m at next level, right associativity) : py_scope.

(** ** Python numbers *)

Module Py.

(** [a / b] on floats: Python raises on a zero divisor (of either sign). *)
Definition truediv (a b : float) : result float :=
  if PrimFloat.eqb b 0%float then Raise ZeroDivisionError
  else Return (PrimFloat.div a b).

(** [a / n] for a float [a] and an int [n]: [n] is converted first, and
    [float(n)] is zero exactly when [n] is. *)
Definition truediv_int (a : float) (n : Z) : result float :=
  if (n =? 0)%Z then Raise ZeroDivisionError
  else Return (PrimFloat.div a (SF2Prim (binary_normalize prec emax n 0 false))).

(** The binary64 number nearest to the rational [m / d] (ties to even),
    for a magnitude [m >= 0] and the sign [neg]. *)
Definition round_quotient (neg : bool) (m : Z) (d : positive) : float :=
  match m with
  | Zpos p =>
      SF2Prim (SFdiv prec emax (S754_finite neg p 0) (S754_finite false d 0))
  | _ => SF2Prim (S754_zero neg)
  end.

(** [a / b] on ints: true division, correctly rounded. *)
Definition int_truediv (a b : Z) : result float :=
  match b with
  | Z0 => Raise ZeroDivisionError
  | Zpos d => Return (round_quotient (a <? 0)%Z (Z.abs a) d)
  | Zneg d => Return (round_quotient (0 <? a)%Z (Z.abs a) d)
  end.

(** [sum(xs)]: left to right from 0.  (CPython's newer releases compensate
    the rounding error of the additions; nothing below depends on how the
    sum is rounded.) *)
Definition sum (xs : list float) : float :=
  fold_left PrimFloat.add xs 0%float.

(** [max(xs)]: the first item, replaced by each later item that is
    greater than the current one; [ValueError] on an empty list. *)
Definition max (xs : list float) : result float :=
  match xs with
  | [] => Raise ValueError
  | x :: xs' =>
      Return (fold_left (fun m y => if PrimFloat.ltb m y then y else m) xs' x)
  end.

(** [xs[i]] for [0 <= i]. *)
Definition index {A} (xs : list A) (i : nat) : result A :=
  match nth_error xs i with
  | Some x => Return x
  | None => Raise IndexError
  end.

(** A stable sort that only asks whether one item has to go strictly
    before another, as [list.sort] does with [<].  [before y x] says that
    [y] must precede [x].  On keys that [<] orders totally every stable
    sort computes this list, and so does [list.sort]; on keys with a NaN
    among them the result of [list.sort] depends on the steps of its
    algorithm and is not modelled: what is stated below of a sorted list is
    stated for numbers. *)
Section StableSort.
Context {A : Type} (before : A -> A -> bool).

Fixpoint insert (x : A) (l : list A) : list A :=
  match l with
  | [] => [x]
  | y :: l' => if before y x then y :: insert x l' else x :: l
  end.

Definition stable_sort (l : list A) : list A := fold_right insert [] l.
End StableSort.

(** [sorted(xs)] on floats that are numbers: a new list, ascending. *)
Definition sorted (xs : list float) : list float :=
  stable_sort (fun y x => PrimFloat.ltb y x) xs.

(** [sorted(xs, key=key, reverse=True)] for keys that are numbers: a new
    list, descending by key, items of equal key in their original order. *)
Definition sorted_reverse {A} (key : A -> float) (xs : list A) : list A :=
  stable_sort (fun y x => PrimFloat.ltb (key x) (key y)) xs.

(** [heapq.nlargest(n, xs, key=key)] for keys that are numbers, by its
    documentation [sorted(xs, key=key, reverse=True)[:n]]; nothing is
    selected for [n <= 0].  (With a NaN among the keys the three branches
    of the library function no longer agree with this.) *)
Definition nlargest {A} (n : Z) (key : A -> float) (xs : list A) : list A :=
  firstn (Z.to_nat n) (sorted_reverse key xs).

End Py.

(** ** The order of binary64 numbers

    For numbers that are not NaN, [<], [<=] and [==] compare a key of three
    integers lexicographically: class and sign, then exponent, then
    mantissa. *)

Module FloatKey.

Definition key (s : spec_float) : option (Z * Z * Z) :=
  match s with
  | S754_nan => None
  | S754_infinity true => Some (-2, 0, 0)%Z
  | S754_finite true m e => Some (-1, - e, - Zpos m)%Z
  | S754_zero _ => Some (0, 0, 0)%Z
  | S754_finite false m e => Some (1, e, Zpos m)%Z
  | S754_infinity false => Some (2, 0, 0)%Z
  end.

Definition lex (a b : Z * Z * Z) : comparison :=
  let '(a1, a2, a3) := a in
  let '(b1, b2, b3) := b in
  match Z.compare a1 b1 with
  | Eq => match Z.compare a2 b2 with Eq => Z.compare a3 b3 | c => c end
  | c => c
  end.

(** [x == x]: [x] is not a NaN. *)
Definition is_number (x : float) : Prop := PrimFloat.is_nan x = false.

(** Python's [a >= b]. *)
Definition ge (a b : float) : Prop := PrimFloat.leb b a = true.

End FloatKey.

(** ** Python strings *)

Module PyStr.

(** [s.split(' ')]: cut at every single space; never empty. *)
Fixpoint split_space (s : string) : list string :=
  match s with
  | EmptyString => [EmptyString]
  | String c s' =>
      if Ascii.eqb c " "%char then EmptyString :: split_space s'
      else match split_space s' with
           | [] => [String c EmptyString]
           | w :: ws => String c w :: ws
           end
  end.

(** [parts[-1]] of a list. *)
Definition last_item (parts : list string) : result string :=
  match rev parts with
  | [] => Raise IndexError
  | x :: _ => Return x
  end.

Definition startswith (s p : string) : bool := String.prefix p s.

Definition endswith (s p : string) : bool :=
  (String.length p <=? String.length s)%nat &&
  String.eqb (substring (String.length s - String.length p) (String.length p) s) p.

(** [s[i:j]] for [0 <= i <= j]. *)
Definition slice (i j : nat) (s : string) : string :=
  let i' := Nat.min i (String.length s) in
  let j' := Nat.min j (String.length s) in
  substring i' (j' - i') s.

(** [max(names)] on strings: the first of the greatest ones. *)
Definition max (names : list string) : result string :=
  match names with
  | [] => Raise ValueError
  | x :: xs =>
      Return (fold_left (fun m y => if String.ltb m y then y else m) xs x)
  end.

(** [os.path.join(a, b)] for a relative [b]. *)
Definition path_join (a b : string) : string :=
  if String.eqb a "" then b
  else if endswith a "/" then String.append a b
  else String.append a (String.append "/" b).

(** Iterating a binary file: every line keeps its terminating newline. *)
Fixpoint binary_lines (s : string) : list string :=
  match s with
  | EmptyString => []
  | String c s' =>
      if Ascii.eqb c "010"%char then String c EmptyString :: binary_lines s'
      else match binary_lines s' with
           | [] => [String c EmptyString]
           | l :: ls => String c l :: ls
           end
  end.

End PyStr.

(** ** The built-in [float(s)] on a string

    Leading and trailing whitespace is dropped: the characters 9 to 13 and
    32, and the two spaces above 127, U+0085 and U+00A0, which [float]
    turns into a space first.  What remains is an optional
    sign followed by [inf], [infinity] or [nan] in any case, or by a decimal
    number with an optional fraction and exponent whose digits may be
    separated by single underscores.  The value is the nearest binary64
    number.  Anything else is a [ValueError]. *)

Module PyFloat.

Definition is_space (c : ascii) : bool :=
  let n := nat_of_ascii c in
  (n =? 32)%nat || ((9 <=? n) && (n <=? 13))%nat || (n =? 133)%nat || (n =? 160)%nat.

Fixpoint lstrip (s : list ascii) : list ascii :=
  match s with
  | c :: s' => if is_space c then lstrip s' else s
  | [] => []
  end.

Definition strip (s : list ascii) : list ascii :=
  rev (lstrip (rev (lstrip s))).

Definition lower (c : ascii) : ascii :=
  let n := nat_of_ascii c in
  if ((65 <=? n) && (n <=? 90))%nat then ascii_of_nat (n + 32) else c.

Definition digit_of (c : ascii) : option Z :=
  let n := nat_of_ascii c in
  if ((48 <=? n) && (n <=? 57))%nat then Some (Z.of_nat (n - 48)) else None.

(** The rest of a digit part: [(["_"] digit)*].  Returns the value read
    so far, the number of digits read and the unread input. *)
Fixpoint digits_rest (s : list ascii) (acc : Z) (n : nat)
  : Z * nat * list ascii :=
  match s with
  | c :: s' =>
      match digit_of c with
      | Some d => digits_rest s' (10 * acc + d)%Z (S n)
      | None =>
          if Ascii.eqb c "_"%char then
            match s' with
            | c' :: s'' =>
                match digit_of c' with
                | Some d => digits_rest s'' (10 * acc + d)%Z (S n)
                | None => (acc, n, s)
                end
            | [] => (acc, n, s)
            end
          else (acc, n, s)
      end
  | [] => (acc, n, s)
  end.

(** [digitpart ::= digit (["_"] digit)*], continuing the value [acc]. *)
Definition digitpart (s : list ascii) (acc : Z)
  : option (Z * nat * list ascii) :=
  match s with
  | c :: s' =>
      match digit_of c with
      | Some d => Some (digits_rest s' (10 * acc + d)%Z 1)
      | None => None
      end
  | [] => None
  end.

(** [number ::= [digitpart] "." digitpart | digitpart ["."]]: the digits
    as one integer and the number of digits after the point. *)
Definition number (s : list ascii) : option (Z * nat * list ascii) :=
  match digitpart s 0 with
  | Some (m, _, r) =>
      match r with
      | c :: r' =>
          if Ascii.eqb c "."%char then
            match digitpart r' m with
            | Some f => Some f
            | None => Some (m, 0%nat, r')
            end
          else Some (m, 0%nat, r)
      | [] => Some (m, 0%nat, r)
      end
  | None =>
      match s with
      | c :: r' => if Ascii.eqb c "."%char then digitpart r' 0 else None
      | [] => None
      end
  end.

Definition sign (s : list ascii) : bool * list ascii :=
  match s with
  | c :: s' =>
      if Ascii.eqb c "-"%char then (true, s')
      else if Ascii.eqb c "+"%char then (false, s')
      else (false, s)
  | [] => (false, s)
  end.

(** [exponent ::= ("e" | "E") [sign] digitpart], optional. *)
Definition exponent (s : list ascii) : option (Z * list ascii) :=
  match s with
  | c :: r =>
      if Ascii.eqb (lower c) "e"%char then
        let '(neg, r1) := sign r in
        match digitpart r1 0 with
        | Some (e, _, r2) => Some (if neg then (- e)%Z else e, r2)
        | None => None
        end
      else Some (0%Z, s)
  | [] => Some (0%Z, s)
  end.

(** The binary64 number nearest to [(-1)^neg * m * 10^e]. *)
Definition decimal (neg : bool) (m e : Z) : float :=
  match e with
  | Zneg k => Py.round_quotient neg m (Pos.pow 10 k)
  | _ =>
      let v := (m * 10 ^ e)%Z in
      SF2Prim (binary_normalize prec emax (if neg then (- v)%Z else v) 0 neg)
  end.

Definition float (s : string) : result float :=
  let '(neg, body) := sign (strip (list_ascii_of_string s)) in
  let word := string_of_list_ascii (map lower body) in
  if String.eqb word "inf" || String.eqb word "infinity" then
    Return (if neg then neg_infinity else infinity)
  else if String.eqb word "nan" then Return nan
  else
    match number body with
    | Some (m, k, r) =>
        match exponent r with
        | Some (e, []) => Return (decimal neg m (e - Z.of_nat k))
        | _ => Raise ValueError
        end
    | None => Raise ValueError
    end.

End PyFloat.

(** ** The module's data *)

(** A line as [read_log_file] hands it on: a [str] or a [bytes] object. *)
Inductive pyline : Type :=
| Str (s : string)
| Bytes (b : string).

(** The dict returned by [parse_log_line]. *)
Record parsed_log : Type := {
  pl_url : string;
  pl_request_time : float
}.

(** [statistics]: url -> list of request times, in insertion order. *)
Definition dict : Type := list (string * list float).

(** [statistics[k].append(v)] on a [defaultdict(list)]: a known key keeps
    its place and its list grows at the end; a new key is added last. *)
Fixpoint dict_append (d : dict) (k : string) (v : float) : dict :=
  match d with
  | [] => [(k, [v])]
  | (k', vs) :: d' =>
      if String.eqb k' k then (k', vs ++ [v]) :: d'
      else (k', vs) :: dict_append d' k v
  end.

(** One row of the report. *)
Record url_stats : Type := {
  url : string;
  count : nat;
  count_perc : float;
  time_sum : float;
  time_perc : float;
  time_avg : float;
  time_max : float;
  time_med : float
}.

(** The module-level [config]. *)
Record Config : Type := {
  REPORT_SIZE : Z;
  REPORT_DIR : string;
  LOG_DIR : string;
  LOGGING_PATH : option string;
  ERRORS_THRESHOLD : float
}.

Definition config : Config := {|
  REPORT_SIZE := 1000;
  REPORT_DIR := "./";
  LOG_DIR := "./";
  LOGGING_PATH := None;
  ERRORS_THRESHOLD := 0.1
|}.

(** The keys a config file may give; [config.update] replaces those. *)
Record custom_config : Type := {
  c_REPORT_SIZE : option Z;
  c_REPORT_DIR : option string;
  c_LOG_DIR : option string;
  c_LOGGING_PATH : option (option string);
  c_ERRORS_THRESHOLD : option float
}.

Definition config_update (c : Config) (u : custom_config) : Config := {|
  REPORT_SIZE := match c_REPORT_SIZE u with Some v => v | None => REPORT_SIZE c end;
  REPORT_DIR := match c_REPORT_DIR u with Some v => v | None => REPORT_DIR c end;
  LOG_DIR := match c_LOG_DIR u with Some v => v | None => LOG_DIR c end;
  LOGGING_PATH := match c_LOGGING_PATH u with Some v => v | None => LOGGING_PATH c end;
  ERRORS_THRESHOLD :=
    match c_ERRORS_THRESHOLD u with Some v => v | None => ERRORS_THRESHOLD c end
|}.

(** What [logging.error] is called with. *)
Inductive log_record : Type :=
| ERROR (msg : string)
| ERROR_parsing (e : exn).

(** What the program finds outside itself. *)
Record filesystem : Type := {
  (** [os.listdir(d)]; [None] when [d] does not exist *)
  listdir : string -> option (list string);
  (** the bytes that [open(p, 'rb')] reads, or the [OSError] it raises *)
  file_bytes : string -> result string;
  (** the text lines [gzip.open(p, 'rt')] iterates over *)
  gzip_text_lines : string -> result (list string);
  (** a config file decoded by [json.load]; [Some None] is invalid JSON *)
  json_file : string -> option (option custom_config);
  (** the [OSError] that opening [p] for writing or appending raises,
      if any *)
  write_error : string -> option exn
}.

(** The state of a run.  [w_create p fs] is what the file system [fs]
    becomes when the log file [p] is opened for appending (and created if
    it was not there).  The reports that are written are kept in
    [w_reports]: writing one is the last step of a run. *)
Record world : Type := {
  w_config : Config;
  w_fs : filesystem;
  w_create : string -> filesystem -> filesystem;
  w_logging_path : option string;
  w_log : list log_record;
  w_reports : list (string * list url_stats)
}.

Definition with_config (c : Config) (w : world) : world :=
  {| w_config := c; w_fs := w_fs w; w_create := w_create w;
     w_logging_path := w_logging_path w;
     w_log := w_log w; w_reports := w_reports w |}.

Definition with_logging_path (p : option string) (w : world) : world :=
  {| w_config := w_config w; w_fs := w_fs w; w_create := w_create w;
     w_logging_path := p;
     w_log := w_log w; w_reports := w_reports w |}.

Definition with_log (l : list log_record) (w : world) : world :=
  {| w_config := w_config w; w_fs := w_fs w; w_create := w_create w;
     w_logging_path := w_logging_path w;
     w_log := l; w_reports := w_reports w |}.

Definition with_reports (r : list (string * list url_stats)) (w : world) : world :=
  {| w_config := w_config w; w_fs := w_fs w; w_create := w_create w;
     w_logging_path := w_logging_path w;
     w_log := w_log w; w_reports := r |}.

Definition with_fs (fs : filesystem) (w : world) : world :=
  {| w_config := w_config w; w_fs := fs; w_create := w_create w;
     w_logging_path := w_logging_path w; w_log := w_log w;
     w_reports := w_reports w |}.

Definition IO (A : Type) : Type := St.M world A.

Definition logging_error (r : log_record) : IO unit :=
  St.modify (fun w => with_log (w_log w ++ [r]) w).

Local Open Scope py_scope.

(** ** The functions of the module *)

(** [logging.basicConfig(filename=log_path, ...)]: without a path the
    records go to the console; with one the file is opened for appending at
    once, which creates it or raises. *)
Definition setup_logging (log_path : option string) : IO unit :=
  match log_path with
  | None => St.modify (with_logging_path None)
  | Some p =>
      fs <- St.gets w_fs ;;
      match write_error fs p with
      | Some e => St.throw e
      | None =>
          St.modify (fun w =>
            with_logging_path (Some p) (with_fs (w_create w p (w_fs w)) w))
      end
  end.

Definition parse_config (config_path : string) : IO unit :=
  fs <- St.gets w_fs ;;
  match json_file fs config_path with
  | None =>
      logging_error (ERROR "Config file not found.") ;;;
      St.throw FileNotFoundError
  | Some None =>
      logging_error (ERROR "Invalid config file format.") ;;;
      St.throw JSONDecodeError
  | Some (Some custom) =>
      St.modify (fun w => with_config (config_update (w_config w) custom) w)
  end.

Definition get_latest_log_file (log_dir : string) : IO (option string) :=
  fs <- St.gets w_fs ;;
  match listdir fs log_dir with
  | None => St.throw FileNotFoundError
  | Some names =>
      let log_files :=
        filter (fun f => PyStr.startswith f "nginx-access-ui.log") names in
      match log_files with
      | [] =>
          logging_error (ERROR "No log files found.") ;;;
          St.ret None
      | _ =>
          m <- St.lift (PyStr.max log_files) ;;
          St.ret (Some m)
      end
  end.

Definition read_log_file (log_file : string) : IO (list pyline) :=
  fs <- St.gets w_fs ;;
  match file_bytes fs log_file with
  | Raise e => St.throw e
  | Return content =>
      if PyStr.endswith log_file ".gz" then
        lines <- St.lift (gzip_text_lines fs log_file) ;;
        St.ret (map Str lines)
      else
        St.ret (map Bytes (PyStr.binary_lines content))
  end.

Definition parse_log_line (line : pyline) : result parsed_log :=
  match line with
  | Bytes _ => Raise TypeError
  | Str s =>
      let parts := PyStr.split_space s in
      match Py.index parts 7 with
      | Raise e => Raise e
      | Return u =>
          match PyStr.last_item parts with
          | Raise e => Raise e
          | Return t =>
              match PyFloat.float t with
              | Raise e => Raise e
              | Return x => Return {| pl_url := u; pl_request_time := x |}
              end
          end
      end
  end.

(** The local variables of [process_logs]. *)
Record aggregation : Type := {
  statistics : dict;
  total_time : float;
  errors_count : nat
}.

(** The [try] suite after a successful parse:
    [statistics[url].append(request_time)]; [total_time += request_time]. *)
Definition record_time (a : aggregation) (parsed : parsed_log) : aggregation :=
  {| statistics :=
       dict_append (statistics a) (pl_url parsed) (pl_request_time parsed);
     total_time := PrimFloat.add (total_time a) (pl_request_time parsed);
     errors_count := errors_count a |}.

(** The [except] suite: [errors_count += 1]. *)
Definition count_error (a : aggregation) : aggregation :=
  {| statistics := statistics a;
     total_time := total_time a;
     errors_count := S (errors_count a) |}.

(** The body of the [for] loop of [process_logs]. *)
Definition process_line (a : aggregation) (log : pyline) : IO aggregation :=
  match parse_log_line log with
  | Return parsed => St.ret (record_time a parsed)
  | Raise e =>
      logging_error (ERROR_parsing e) ;;;
      St.ret (count_error a)
  end.

Fixpoint for_each {S A B} (f : A -> B -> St.M S A) (a : A) (l : list B)
  : St.M S A :=
  match l with
  | [] => St.ret a
  | x :: l' => a' <- f a x ;; for_each f a' l'
  end.

Definition process_logs (logs : list pyline) : IO (dict * float) :=
  a <- for_each process_line
         {| statistics := []; total_time := 0; errors_count := 0 |} logs ;;
  rate <- St.lift (Py.int_truediv (Z.of_nat (errors_count a))
                                  (Z.of_nat (List.length logs))) ;;
  threshold <- St.gets (fun w => ERRORS_THRESHOLD (w_config w)) ;;
  if PrimFloat.ltb threshold rate then
    logging_error (ERROR "Too many errors parsing log lines. Exiting.") ;;;
    St.throw (RuntimeError "Too many errors parsing log lines.")
  else St.ret (statistics a, total_time a).

(** The objects [generate_report] is handed: the [statistics] dict with its
    lists, and [total_time].  The function runs in a state monad over them,
    so that whatever it did to them would show in the final state. *)
Record store : Type := {
  s_statistics : dict;
  s_total_time : float
}.

(** The dict literal built for one item of [sorted_stats], its entries
    evaluated in the order they are written. *)
Definition url_stats_of (item : string * list float) : St.M store url_stats :=
  let '(u, times) := item in
  n_urls <- St.gets (fun s => List.length (s_statistics s)) ;;
  cp <- St.lift (Py.int_truediv (Z.of_nat (List.length times)) (Z.of_nat n_urls)) ;;
  total <- St.gets s_total_time ;;
  tp <- St.lift (Py.truediv (Py.sum times) total) ;;
  ta <- St.lift (Py.truediv_int (Py.sum times) (Z.of_nat (List.length times))) ;;
  tmax <- St.lift (Py.max times) ;;
  tmed <- St.lift (Py.index (Py.sorted times) (List.length times / 2)) ;;
  St.ret {| url := u;
            count := List.length times;
            count_perc := cp;
            time_sum := Py.sum times;
            time_perc := tp;
            time_avg := ta;
            time_max := tmax;
            time_med := tmed |}.

(** The sort key of [generate_report]: [lambda x: sum(x[1])]. *)
Definition by_time_sum (x : string * list float) : float := Py.sum (snd x).

Definition generate_report (report_size : Z) : St.M store (list url_stats) :=
  items <- St.gets s_statistics ;;
  let sorted_stats := Py.nlargest report_size by_time_sum items in
  for_each
    (fun report_data item =>
       url_stats <- url_stats_of item ;;
       St.ret (report_data ++ [url_stats]))
    [] sorted_stats.

Definition save_report (report_data : list url_stats) (report_path : string)
  : IO unit :=
  fs <- St.gets w_fs ;;
  match write_error fs report_path with
  | Some e => St.throw e
  | None =>
      St.modify (fun w =>
        with_reports (w_reports w ++ [(report_path, report_data)]) w)
  end.

(** The first statement of [main]: [if args.config: parse_config(...)]. *)
Definition main_config (args_config : option string) : IO unit :=
  match args_config with
  | Some p => if String.eqb p "" then St.ret tt else parse_config p
  | None => St.ret tt
  end.

(** [main], given the value of [--config] ([None] when the flag is absent).
    A [Raise] outcome is an exception that nothing catches. *)
Definition main (args_config : option string) : IO unit :=
  main_config args_config ;;;
  logging_path <- St.gets (fun w => LOGGING_PATH (w_config w)) ;;
  setup_logging logging_path ;;;
  log_dir <- St.gets (fun w => LOG_DIR (w_config w)) ;;
  latest <- get_latest_log_file log_dir ;;
  match latest with
  | None =>
      logging_error (ERROR "No log files found. Exiting.")
  | Some latest_log_file =>
      if String.eqb latest_log_file "" then
        logging_error (ERROR "No log files found. Exiting.")
      else
        log_dir <- St.gets (fun w => LOG_DIR (w_config w)) ;;
        let log_path := PyStr.path_join log_dir latest_log_file in
        logs <- read_log_file log_path ;;
        ' (stats, total) <- process_logs logs ;;
        report_size <- St.gets (fun w => REPORT_SIZE (w_config w)) ;;
        report_data <- St.lift
          (fst (generate_report report_size
                  {| s_statistics := stats; s_total_time := total |})) ;;
        report_dir <- St.gets (fun w => REPORT_DIR (w_config w)) ;;
        let report_filename :=
          PyStr.path_join report_dir
            (String.append "report-"
               (String.append (PyStr.slice 17 27 latest_log_file) ".html")) in
        save_report report_data report_filename
  end.

(** ** Notions used in the statements *)

(** The number of lines that [parse_log_line] rejects. *)
Definition parse_errors (logs : list pyline) : nat :=
  List.length (filter (fun l => raises (parse_log_line l)) logs).

(** What one line does to the local variables of [process_logs]. *)
Definition aggregate_line (a : aggregation) (log : pyline) : aggregation :=
  match parse_log_line log with
  | Return parsed => record_time a parsed
  | Raise _ => count_error a
  end.

(** What each rejected line logs. *)
Definition parse_error_log (logs : list pyline) : list log_record :=
  flat_map (fun l => match parse_log_line l with
                     | Return _ => []
                     | Raise e => [ERROR_parsing e]
                     end) logs.

(** Results in sequence: the first exception wins. *)
Fixpoint traverse {A B} (f : A -> result B) (l : list A) : result (list B) :=
  match l with
  | [] => Return []
  | x :: l' =>
      match f x with
      | Raise e => Raise e
      | Return y =>
          match traverse f l' with
          | Raise e => Raise e
          | Return ys => Return (y :: ys)
          end
      end
  end.

(** An aggregation as [process_logs] builds it: no URL without a time. *)
Definition times_nonempty (d : dict) : Prop :=
  Forall (fun it => snd it <> []) d.

(** The times the dict holds for a URL (none when the URL is absent). *)
Fixpoint times_of (d : dict) (k : string) : list float :=
  match d with
  | [] => []
  | (k', vs) :: d' => if String.eqb k' k then vs else times_of d' k
  end.

(** What a row says about the item it was built from. *)
Definition is_row_of (st : store) (it : string * list float) (r : url_stats)
  : Prop :=
  url r = fst it /\
  count r = List.length (snd it) /\
  time_sum r = Py.sum (snd it) /\
  time_perc r = PrimFloat.div (Py.sum (snd it)) (s_total_time st) /\
  time_med r = nth (List.length (snd it) / 2) (Py.sorted (snd it)) 0%float.

(** ** Sample inputs *)

(** Two requests of [/a] (0.25 s and 0.75 s) and one of [/b] (0.5 s). *)
Definition two_urls : store :=
  {| s_statistics := [("/a", [0.25; 0.75]); ("/b", [0.5])]%float;
     s_total_time := 1.5 |}.

(** One URL with an even number of requests. *)
Definition even_times : store :=
  {| s_statistics := [("/a", [0.25; 0.75])]%float; s_total_time := 1 |}.

(** Requests that all took 0.000 s. *)
Definition zero_times : store :=
  {| s_statistics := [("/cached", [0])]%float; s_total_time := 0 |}.

Definition zero_times_two : store :=
  {| s_statistics := [("/cached", [0; 0]); ("/ping", [0])]%float;
     s_total_time := 0 |}.

Definition exception_of {A} (r : result A) : option exn :=
  match r with Return _ => None | Raise e => Some e end.

Definition nl : string := String "010" EmptyString.

(** A log line in the layout the parser expects: the URL is the eighth
    space-separated field, the request time the last one. *)
Definition sample_line : string :=
  String.append
    "1.196.116.32 -  - [29/Jun/2017:03:50:22 +0300] GET /api/v2/banner HTTP/1.1 200 927 0.390"
    nl.

(** The same line with nothing between the two spaces where the URL
    belongs. *)
Definition empty_url_line : string :=
  String.append
    "1.196.116.32 -  - [29/Jun/2017:03:50:22 +0300] GET  HTTP/1.1 200 927 0.390"
    nl.

Definition no_gzip : string -> result (list string) := fun _ => Raise OSError.

(** A log directory holding one plain (uncompressed) log of one line. *)
Definition plain_log_fs : filesystem := {|
  listdir := fun d =>
    if String.eqb d "./" then Some ["nginx-access-ui.log-20170630"] else None;
  file_bytes := fun p =>
    if String.eqb p "./nginx-access-ui.log-20170630" then Return sample_line
    else Raise FileNotFoundError;
  gzip_text_lines := no_gzip;
  json_file := fun _ => None;
  write_error := fun _ => None
|}.

(** The same log, compressed. *)
Definition gzip_log_fs : filesystem := {|
  listdir := fun d =>
    if String.eqb d "./" then Some ["nginx-access-ui.log-20170630.gz"] else None;
  file_bytes := fun p =>
    if String.eqb p "./nginx-access-ui.log-20170630.gz" then Return "(compressed)"
    else Raise FileNotFoundError;
  gzip_text_lines := fun p =>
    if String.eqb p "./nginx-access-ui.log-20170630.gz" then Return [sample_line]
    else Raise OSError;
  json_file := fun _ => None;
  write_error := fun _ => None
|}.

(** A log directory holding one empty plain log. *)
Definition empty_log_fs : filesystem := {|
  listdir := fun d =>
    if String.eqb d "./" then Some ["nginx-access-ui.log-20170630"] else None;
  file_bytes := fun p =>
    if String.eqb p "./nginx-access-ui.log-20170630" then Return ""
    else Raise FileNotFoundError;
  gzip_text_lines := no_gzip;
  json_file := fun _ => None;
  write_error := fun _ => None
|}.

(** A log directory without any nginx log. *)
Definition no_log_fs : filesystem := {|
  listdir := fun d => if String.eqb d "./" then Some ["README"; "access.log"] else None;
  file_bytes := fun _ => Raise FileNotFoundError;
  gzip_text_lines := no_gzip;
  json_file := fun _ => None;
  write_error := fun _ => None
|}.

(** A configuration file that names a log directory which does not
    exist. *)
Definition missing_dir_fs : filesystem := {|
  listdir := fun d => if String.eqb d "./" then Some ["conf.json"] else None;
  file_bytes := fun _ => Raise FileNotFoundError;
  gzip_text_lines := no_gzip;
  json_file := fun p =>
    if String.eqb p "conf.json"
    then Some (Some {| c_REPORT_SIZE := None; c_REPORT_DIR := None;
                       c_LOG_DIR := Some "./logs"; c_LOGGING_PATH := None;
                       c_ERRORS_THRESHOLD := None |})
    else None;
  write_error := fun _ => None
|}.

(** The state a run starts in: the built-in [config], nothing logged,
    nothing written.  These runs log to the console, so that [w_create] is
    never asked. *)
Definition start (fs : filesystem) : world :=
  {| w_config := config; w_fs := fs; w_create := fun _ fs' => fs';
     w_logging_path := None; w_log := []; w_reports := [] |}.

(** ** More sample inputs *)

(** A log directory with two days of logs, the later one both plain and
    compressed, among other files. *)
Definition two_days_fs : filesystem := {|
  listdir := fun d =>
    if String.eqb d "./"
    then Some ["nginx-access-ui.log-20170629.gz"; "notes.txt";
               "nginx-access-ui.log-20170630"; "nginx-access-ui.log-20170630.gz"]
    else None;
  file_bytes := fun _ => Raise FileNotFoundError;
  gzip_text_lines := no_gzip;
  json_file := fun _ => None;
  write_error := fun _ => None
|}.

(** ** More notions used in the statements *)

(** The records of the lines that [parse_log_line] accepts, in log order. *)
Definition accepted (logs : list pyline) : list parsed_log :=
  flat_map (fun l => match parse_log_line l with
                     | Return parsed => [parsed]
                     | Raise _ => []
                     end) logs.

(** The number of request times a dict holds. *)
Definition requests (d : dict) : nat :=
  list_sum (map (fun it => List.length (snd it)) d).

(** The URLs of a list in the order of their first occurrence. *)
Definition first_seen (urls : list string) : list string :=
  rev (nodup string_dec (rev urls)).

(** A state in which every line may fail: the threshold is 1. *)
Definition tolerant (fs : filesystem) : world :=
  {| w_config := {| REPORT_SIZE := 1000; REPORT_DIR := "./"; LOG_DIR := "./";
                    LOGGING_PATH := None; ERRORS_THRESHOLD := 1 |};
     w_fs := fs; w_create := fun _ fs' => fs'; w_logging_path := None;
     w_log := []; w_reports := [] |}.

(** A step of the program that leaves the written reports alone. *)
Definition keeps {A} (m : IO A) : Prop :=
  forall w, w_reports (snd (m w)) = w_reports w.

(** A step that either leaves the written reports alone or ends normally
    with one report added after them. *)
Definition writes_at_most_one {A} (m : IO A) : Prop :=
  forall w,
    w_reports (snd (m w)) = w_reports w \/
    (raises (fst (m w)) = false /\
     exists path data, w_reports (snd (m w)) = w_reports w ++ [(path, data)]).

(** * Properties *)

(** ** The order of binary64 numbers *)

Module FloatOrder.

Import FloatKey.

Lemma SFcompare_key x y :
  SFcompare x y =
  match key x, key y with
  | Some a, Some b => Some (lex a b)
  | _, _ => None
  end.
Proof.
  destruct x as [[]|[]| |[] mx ex], y as [[]|[]| |[] my ey]; simpl; try reflexivity.
  rewrite Z.compare_opp, (Z.compare_antisym ex ey).
  destruct (ex ?= ey)%Z; reflexivity.
Qed.

Lemma lex_refl a : lex a a = Eq.
Proof. destruct a as [[a1 a2] a3]; simpl. now rewrite !Z.compare_refl. Qed.

Lemma lex_antisym a b : lex b a = CompOpp (lex a b).
Proof.
  destruct a as [[a1 a2] a3], b as [[b1 b2] b3]; simpl.
  rewrite (Z.compare_antisym a1 b1), (Z.compare_antisym a2 b2), (Z.compare_antisym a3 b3).
  destruct (a1 ?= b1)%Z, (a2 ?= b2)%Z; reflexivity.
Qed.

Lemma lex_le_iff a b :
  lex a b <> Gt <->
  let '(a1, a2, a3) := a in
  let '(b1, b2, b3) := b in
  (a1 < b1 \/ (a1 = b1 /\ (a2 < b2 \/ (a2 = b2 /\ a3 <= b3))))%Z.
Proof.
  destruct a as [[a1 a2] a3], b as [[b1 b2] b3]; simpl.
  destruct (Z.compare_spec a1 b1), (Z.compare_spec a2 b2), (Z.compare_spec a3 b3);
    split; intros; try congruence; try lia.
Qed.

Lemma lex_le_trans a b c : lex a b <> Gt -> lex b c <> Gt -> lex a c <> Gt.
Proof.
  rewrite !lex_le_iff.
  destruct a as [[a1 a2] a3], b as [[b1 b2] b3], c as [[c1 c2] c3]. lia.
Qed.

Lemma is_number_key x : is_number x <-> key (Prim2SF x) <> None.
Proof.
  unfold is_number, is_nan. rewrite eqb_spec. unfold SFeqb.
  rewrite SFcompare_key. destruct (key (Prim2SF x)) as [k|].
  - rewrite lex_refl. simpl. split; congruence.
  - simpl. split; congruence.
Qed.

Lemma ltb_key x y :
  PrimFloat.ltb x y =
  match key (Prim2SF x), key (Prim2SF y) with
  | Some a, Some b => match lex a b with Lt => true | _ => false end
  | _, _ => false
  end.
Proof.
  rewrite ltb_spec. unfold SFltb. rewrite SFcompare_key.
  destruct (key (Prim2SF x)), (key (Prim2SF y)); reflexivity.
Qed.

Lemma leb_key x y :
  PrimFloat.leb x y =
  match key (Prim2SF x), key (Prim2SF y) with
  | Some a, Some b => match lex a b with Gt => false | _ => true end
  | _, _ => false
  end.
Proof.
  rewrite leb_spec. unfold SFleb. rewrite SFcompare_key.
  destruct (key (Prim2SF x)), (key (Prim2SF y)); reflexivity.
Qed.

Lemma eqb_key x y :
  PrimFloat.eqb x y =
  match key (Prim2SF x), key (Prim2SF y) with
  | Some a, Some b => match lex a b with Eq => true | _ => false end
  | _, _ => false
  end.
Proof.
  rewrite eqb_spec. unfold SFeqb. rewrite SFcompare_key.
  destruct (key (Prim2SF x)), (key (Prim2SF y)); reflexivity.
Qed.

Lemma leb_refl x : is_number x -> PrimFloat.leb x x = true.
Proof.
  rewrite is_number_key, leb_key. destruct (key (Prim2SF x)); [|congruence].
  now rewrite lex_refl.
Qed.

Lemma ltb_leb x y : PrimFloat.ltb x y = true -> PrimFloat.leb x y = true.
Proof.
  rewrite ltb_key, leb_key.
  destruct (key (Prim2SF x)), (key (Prim2SF y)); try discriminate.
  destruct (lex _ _); congruence.
Qed.

Lemma not_ltb_leb x y :
  is_number x -> is_number y ->
  PrimFloat.ltb x y = false -> PrimFloat.leb y x = true.
Proof.
  rewrite !is_number_key, ltb_key, leb_key.
  destruct (key (Prim2SF x)) as [a|], (key (Prim2SF y)) as [b|]; try congruence.
  rewrite (lex_antisym a b). destruct (lex a b); simpl; congruence.
Qed.

Lemma leb_trans x y z :
  PrimFloat.leb x y = true -> PrimFloat.leb y z = true ->
  PrimFloat.leb x z = true.
Proof.
  rewrite !leb_key.
  destruct (key (Prim2SF x)) as [a|], (key (Prim2SF y)) as [b|],
           (key (Prim2SF z)) as [c|]; try discriminate.
  intros Hab Hbc. pose proof (lex_le_trans a b c) as H.
  destruct (lex a b), (lex b c), (lex a c); try discriminate; try reflexivity;
    exfalso; apply H; congruence.
Qed.

Lemma eqb_not_ltb x y :
  PrimFloat.eqb x y = true -> PrimFloat.ltb y x = false.
Proof.
  rewrite eqb_key, ltb_key.
  destruct (key (Prim2SF x)) as [a|], (key (Prim2SF y)) as [b|]; try discriminate.
  rewrite (lex_antisym a b). destruct (lex a b); simpl; congruence.
Qed.

End FloatOrder.

(** ** The built-ins on examples *)

Example split_space_example : PyStr.split_space "a b  c" = ["a"; "b"; ""; "c"].
Proof. reflexivity. Qed.

Example binary_lines_example :
  PyStr.binary_lines (String.append "ab" (String.append nl (String.append nl "c")))
  = [String.append "ab" nl; nl; "c"].
Proof. reflexivity. Qed.

Example endswith_example :
  PyStr.endswith "x.gz" ".gz" = true /\ PyStr.endswith "gz" ".gz" = false /\
  PyStr.endswith "x.gzip" ".gz" = false.
Proof. repeat split; reflexivity. Qed.

Example slice_example :
  PyStr.slice 17 27 "nginx-access-ui.log-20170630.gz" = "og-2017063".
Proof. reflexivity. Qed.

Example float_accepts :
  map PyFloat.float
    [String.append "0.390" nl; "0.1"; ".5"; "5."; "1e3"; "1_0"; " -2.5E-1 ";
     "inf"; "-Infinity"; "1e400"; "1e-400"; "-0";
     "0.30000000000000004"; "9007199254740993"; "4.9e-324"]
  = map Return
      [0.390; 0.1; 0.5; 5; 1000; 10; -0.25;
       infinity; neg_infinity; infinity; 0; neg_zero;
       0.30000000000000004; 9007199254740992; 4.9e-324]%float.
Proof. vm_compute. reflexivity. Qed.

Example float_rejects :
  map (fun s => exception_of (PyFloat.float s))
    [""; " "; "_1"; "1__0"; "1_"; "1e"; "1e+"; "0x10"; "."; "e5"; "1.5.2";
     "--1"; "1 2"; "-"; "in"; "1._5"; "abc"]
  = repeat (Some ValueError) 17.
Proof. vm_compute. reflexivity. Qed.

Example nlargest_example :
  map fst (Py.nlargest 2 by_time_sum
             [("/a", [0.5]); ("/b", [2]); ("/c", [0.5; 0.5]); ("/d", [1])]%float)
  = ["/b"; "/c"].
Proof. vm_compute. reflexivity. Qed.

(** Three lines, two for [/a] (0.1 s and 0.3 s) and one for [/b] (0.2 s):
    the aggregation, and the report of size 2. *)
Example scenario_two_urls :
  let line u t :=
    Str (String.append "1.2.3.4 -  - [29/Jun/2017:03:50:22 +0300] GET "
           (String.append u (String.append " HTTP/1.1 200 927 " (String.append t nl)))) in
  let logs := [line "/a" "0.1"; line "/b" "0.2"; line "/a" "0.3"] in
  fst (process_logs logs (start gzip_log_fs))
  = Return ([("/a", [0.1; 0.3]); ("/b", [0.2])], (0.1 + 0.2 + 0.3))%float /\
  map (fun r => (url r, count r, time_sum r, time_max r))
    match fst (generate_report 2
                 {| s_statistics := [("/a", [0.1; 0.3]); ("/b", [0.2])]%float;
                    s_total_time := (0.1 + 0.2 + 0.3)%float |}) with
    | Return rows => rows
    | Raise _ => []
    end
  = [("/a", 2%nat, 0.1 + 0.3, 0.3); ("/b", 1%nat, 0.2, 0.2)]%float.
Proof. vm_compute. split; reflexivity. Qed.

(** ** Stable sorting and selection *)

Section StableSortFacts.
Context {A : Type} (before : A -> A -> bool).

Lemma insert_perm x l : Permutation (Py.insert before x l) (x :: l).
Proof.
  induction l as [|y l IH]; simpl; [reflexivity|].
  destruct (before y x); [|reflexivity].
  rewrite IH. apply perm_swap.
Qed.

Lemma stable_sort_perm l : Permutation (Py.stable_sort before l) l.
Proof.
  induction l as [|x l IH]; simpl; [constructor|].
  rewrite insert_perm. now constructor.
Qed.

Lemma stable_sort_length l : List.length (Py.stable_sort before l) = List.length l.
Proof. apply Permutation_length, stable_sort_perm. Qed.

(** [P] holds of the items whose keys compare as a total preorder; [R a b]
    says that [a] may stand before [b]. *)
Context (P : A -> Prop) (R : A -> A -> Prop).
Hypothesis before_true : forall x y, P x -> P y -> before y x = true -> R y x.
Hypothesis before_false : forall x y, P x -> P y -> before y x = false -> R x y.
Hypothesis R_trans : forall x y z, R x y -> R y z -> R x z.

Lemma insert_sorted x l :
  P x -> Forall P l -> StronglySorted R l ->
  StronglySorted R (Py.insert before x l).
Proof.
  intros Px Pl Hs. induction Hs as [|y l Hs IH Hy]; simpl.
  - repeat constructor.
  - inversion Pl as [|? ? Py' Pl']; subst.
    destruct (before y x) eqn:E.
    + constructor; [now apply IH|].
      rewrite (insert_perm x l). constructor; [now apply before_true|exact Hy].
    + constructor; [now constructor|].
      assert (Rxy : R x y) by now apply before_false.
      constructor; [exact Rxy|].
      eapply Forall_impl; [|exact Hy]. intros z Hz. now apply R_trans with y.
Qed.

Lemma stable_sort_sorted l :
  Forall P l -> StronglySorted R (Py.stable_sort before l).
Proof.
  induction 1 as [|x l Px Pl IH]; simpl; [constructor|].
  apply insert_sorted; auto.
  rewrite stable_sort_perm. exact Pl.
Qed.
End StableSortFacts.

Lemma StronglySorted_app_inv {A} (R : A -> A -> Prop) l1 l2 :
  StronglySorted R (l1 ++ l2) ->
  StronglySorted R l1 /\ Forall (fun a => Forall (R a) l2) l1.
Proof.
  induction l1 as [|x l1 IH]; simpl; intros H.
  - split; constructor.
  - inversion H as [|? ? Hs Hx]; subst. destruct (IH Hs) as [H1 H2].
    apply Forall_app in Hx as [Hx1 Hx2].
    split; constructor; auto.
Qed.

(** [sorted(xs)] is ascending when no item is a NaN, and always a
    rearrangement of [xs]. *)
Lemma sorted_ascending xs :
  Forall FloatKey.is_number xs ->
  StronglySorted (fun a b => PrimFloat.leb a b = true) (Py.sorted xs).
Proof.
  intros H. unfold Py.sorted.
  apply stable_sort_sorted with (P := FloatKey.is_number); auto.
  - intros x y _ _. apply FloatOrder.ltb_leb.
  - intros x y Hx Hy. now apply FloatOrder.not_ltb_leb.
  - intros x y z. apply FloatOrder.leb_trans.
Qed.

Lemma sorted_reverse_descending {A} (key : A -> float) xs :
  Forall (fun a => FloatKey.is_number (key a)) xs ->
  StronglySorted (fun a b => FloatKey.ge (key a) (key b)) (Py.sorted_reverse key xs).
Proof.
  intros H. unfold Py.sorted_reverse, FloatKey.ge.
  apply stable_sort_sorted with (P := fun a => FloatKey.is_number (key a)); auto.
  - intros x y _ _. apply FloatOrder.ltb_leb.
  - intros x y Hx Hy. now apply FloatOrder.not_ltb_leb.
  - intros x y z Hxy Hyz. now apply FloatOrder.leb_trans with (key y).
Qed.

(** What [nlargest] selects: a prefix of a rearrangement of the items, in
    descending order of key, that dominates what it leaves out. *)
Lemma nlargest_spec {A} (key : A -> float) (n : Z) xs :
  Forall (fun a => FloatKey.is_number (key a)) xs ->
  exists rest,
    Permutation xs (Py.nlargest n key xs ++ rest) /\
    List.length (Py.nlargest n key xs) = Nat.min (Z.to_nat n) (List.length xs) /\
    StronglySorted (fun a b => FloatKey.ge (key a) (key b)) (Py.nlargest n key xs) /\
    Forall (fun a => Forall (fun b => FloatKey.ge (key a) (key b)) rest)
           (Py.nlargest n key xs).
Proof.
  intros H. pose proof (sorted_reverse_descending key xs H) as Hs.
  unfold Py.nlargest.
  rewrite <- (firstn_skipn (Z.to_nat n) (Py.sorted_reverse key xs)) in Hs.
  apply StronglySorted_app_inv in Hs as [Hs1 Hs2].
  exists (skipn (Z.to_nat n) (Py.sorted_reverse key xs)). repeat split; auto.
  - rewrite firstn_skipn. symmetry. apply stable_sort_perm.
  - rewrite length_firstn. unfold Py.sorted_reverse.
    now rewrite stable_sort_length.
Qed.

(** ** Running [generate_report] *)

Ltac run_st :=
  unfold St.bind, St.gets, St.lift, St.ret, St.throw, St.modify; simpl.

Lemma url_stats_of_frame item st : snd (url_stats_of item st) = st.
Proof.
  destruct item as [u times]. unfold url_stats_of. run_st.
  destruct (Py.int_truediv _ _); [|reflexivity].
  destruct (Py.truediv _ _); [|reflexivity].
  destruct (Py.truediv_int _ _); [|reflexivity].
  destruct (Py.max _); [|reflexivity].
  destruct (Py.index _ _); reflexivity.
Qed.

Lemma url_stats_of_run item st :
  url_stats_of item st = (fst (url_stats_of item st), st).
Proof.
  rewrite <- (url_stats_of_frame item st) at 3. apply surjective_pairing.
Qed.

Lemma report_loop_run st items acc :
  for_each
    (fun report_data item =>
       url_stats <- url_stats_of item ;;
       St.ret (report_data ++ [url_stats]))
    acc items st
  = (match traverse (fun it => fst (url_stats_of it st)) items with
     | Return rows => Return (acc ++ rows)
     | Raise e => Raise e
     end, st).
Proof.
  revert acc. induction items as [|it items IH]; intros acc; simpl.
  - unfold St.ret. now rewrite app_nil_r.
  - unfold St.bind at 1. unfold St.bind at 1. rewrite url_stats_of_run.
    destruct (fst (url_stats_of it st)) as [r|e]; [|reflexivity].
    unfold St.ret at 1. rewrite IH.
    destruct (traverse _ items); [|reflexivity].
    now rewrite <- app_assoc.
Qed.

Lemma generate_report_run report_size st :
  generate_report report_size st
  = (traverse (fun it => fst (url_stats_of it st))
       (Py.nlargest report_size by_time_sum (s_statistics st)), st).
Proof.
  unfold generate_report. unfold St.bind at 1, St.gets at 1.
  rewrite report_loop_run. now destruct (traverse _ _).
Qed.

Lemma traverse_ok {A B} (f : A -> result B) (Q : A -> B -> Prop) l :
  Forall (fun x => exists y, f x = Return y /\ Q x y) l ->
  exists ys, traverse f l = Return ys /\ Forall2 Q l ys.
Proof.
  induction 1 as [|x l [y [Hy HQ]] _ [ys [Hys HF]]]; simpl.
  - exists []. split; [reflexivity|constructor].
  - exists (y :: ys). rewrite Hy, Hys. split; [reflexivity|now constructor].
Qed.

Lemma index_sorted_middle times :
  times <> [] ->
  Py.index (Py.sorted times) (List.length times / 2)
  = Return (nth (List.length times / 2) (Py.sorted times) 0%float).
Proof.
  intros H. unfold Py.index.
  assert (L : (List.length times / 2 < List.length (Py.sorted times))%nat).
  { unfold Py.sorted. rewrite stable_sort_length.
    destruct times; [congruence|]. apply Nat.div_lt; simpl; lia. }
  destruct (nth_error _ _) as [x|] eqn:E.
  - now rewrite (nth_error_nth _ _ _ E).
  - apply nth_error_None in E. lia.
Qed.

(** The row of an item, when nothing divides by zero. *)
Lemma url_stats_of_ok u times st :
  s_statistics st <> [] -> times <> [] ->
  PrimFloat.eqb (s_total_time st) 0 = false ->
  exists cp ta tmax,
    fst (url_stats_of (u, times) st)
    = Return {| url := u;
                count := List.length times;
                count_perc := cp;
                time_sum := Py.sum times;
                time_perc := PrimFloat.div (Py.sum times) (s_total_time st);
                time_avg := ta;
                time_max := tmax;
                time_med := nth (List.length times / 2) (Py.sorted times) 0%float |}.
Proof.
  intros Hs Ht H0. unfold url_stats_of.
  unfold St.bind, St.gets, St.lift, St.ret.
  rewrite (index_sorted_middle times Ht).
  assert (Hcp : exists cp, Py.int_truediv (Z.of_nat (List.length times))
                  (Z.of_nat (List.length (s_statistics st))) = Return cp).
  { destruct (s_statistics st); [congruence|]. simpl. eauto. }
  destruct Hcp as [cp ->].
  unfold Py.truediv. rewrite H0.
  assert (Hta : exists ta, Py.truediv_int (Py.sum times)
                  (Z.of_nat (List.length times)) = Return ta).
  { destruct times; [congruence|]. unfold Py.truediv_int. simpl. eauto. }
  destruct Hta as [ta ->].
  assert (Hmax : exists m, Py.max times = Return m).
  { destruct times; [congruence|]. simpl. eauto. }
  destruct Hmax as [m ->].
  cbn [fst]. eauto.
Qed.

(** With a zero [total_time] the first row already fails. *)
Lemma url_stats_of_zero u times st :
  s_statistics st <> [] ->
  PrimFloat.eqb (s_total_time st) 0 = true ->
  fst (url_stats_of (u, times) st) = Raise ZeroDivisionError.
Proof.
  intros Hs H0. unfold url_stats_of.
  unfold St.bind, St.gets, St.lift, St.ret.
  assert (Hcp : exists cp, Py.int_truediv (Z.of_nat (List.length times))
                  (Z.of_nat (List.length (s_statistics st))) = Return cp).
  { destruct (s_statistics st); [congruence|]. simpl. eauto. }
  destruct Hcp as [cp ->].
  unfold Py.truediv. now rewrite H0.
Qed.

Lemma nlargest_incl {A} (key : A -> float) n xs x :
  In x (Py.nlargest n key xs) -> In x xs.
Proof.
  unfold Py.nlargest, Py.sorted_reverse. intros H.
  eapply Permutation_in; [apply stable_sort_perm|].
  rewrite <- (firstn_skipn (Z.to_nat n)). apply in_or_app. left. exact H.
Qed.

Lemma nlargest_length {A} (key : A -> float) n xs :
  List.length (Py.nlargest n key xs) = Nat.min (Z.to_nat n) (List.length xs).
Proof.
  unfold Py.nlargest, Py.sorted_reverse.
  now rewrite length_firstn, stable_sort_length.
Qed.

(** Away from the zero divisors the report is built, row by row, from the
    selection. *)
Lemma generate_report_ok st report_size :
  PrimFloat.eqb (s_total_time st) 0 = false ->
  times_nonempty (s_statistics st) ->
  exists rows,
    fst (generate_report report_size st) = Return rows /\
    Forall2 (is_row_of st)
      (Py.nlargest report_size by_time_sum (s_statistics st)) rows.
Proof.
  intros H0 Hne. rewrite generate_report_run. cbn [fst].
  apply traverse_ok. apply Forall_forall. intros [u times] Hin.
  apply nlargest_incl in Hin.
  assert (Hs : s_statistics st <> []) by (intros E; rewrite E in Hin; inversion Hin).
  assert (Ht : times <> []).
  { unfold times_nonempty in Hne. rewrite Forall_forall in Hne.
    exact (Hne _ Hin). }
  destruct (url_stats_of_ok u times st Hs Ht H0) as (cp & ta & tmax & ->).
  eexists. split; [reflexivity|].
  unfold is_row_of. cbn. repeat split; reflexivity.
Qed.

(** With a zero [total_time] and something to report, nothing is built. *)
Lemma generate_report_zero st report_size :
  (1 <= report_size)%Z -> s_statistics st <> [] ->
  PrimFloat.eqb (s_total_time st) 0 = true ->
  fst (generate_report report_size st) = Raise ZeroDivisionError.
Proof.
  intros Hn Hs H0. rewrite generate_report_run. cbn [fst].
  pose proof (nlargest_length by_time_sum report_size (s_statistics st)) as L.
  destruct (Py.nlargest _ _ _) as [|[u times] l].
  - destruct (s_statistics st); [congruence|]. simpl in L. lia.
  - cbn [traverse]. now rewrite url_stats_of_zero.
Qed.

Lemma Forall2_length_eq {A B} (Q : A -> B -> Prop) l l' :
  Forall2 Q l l' -> List.length l = List.length l'.
Proof. induction 1; simpl; congruence. Qed.

Lemma Forall2_map_eq {A B C} (f : A -> C) (g : B -> C) (Q : A -> B -> Prop) l l' :
  (forall a b, Q a b -> g b = f a) ->
  Forall2 Q l l' -> map g l' = map f l.
Proof.
  intros HQ. induction 1 as [|a b l l' Hab _ IH]; simpl; [reflexivity|].
  now rewrite IH, (HQ _ _ Hab).
Qed.

Lemma StronglySorted_map {A B} (f : A -> B) (R : B -> B -> Prop) l :
  StronglySorted (fun a b => R (f a) (f b)) l <-> StronglySorted R (map f l).
Proof.
  induction l as [|x l IH]; simpl.
  - split; constructor.
  - split; intros H; inversion H as [|? ? Hs Hx]; subst; constructor.
    + now apply IH.
    + rewrite Forall_forall in *. intros b Hb.
      apply in_map_iff in Hb as (a & <- & Ha). now apply Hx.
    + now apply IH.
    + rewrite Forall_forall in *. intros a Ha.
      apply Hx, in_map, Ha.
Qed.

(** ** The claims about [generate_report] *)

(** C3 (as the code has it): for an aggregation whose time sums are
    numbers, the reported [time_med] of a URL with [n] request times that
    are numbers is the item at index [n // 2] of [sorted(times)], the
    ascending rearrangement of the times; for an even [n] that is the upper
    of the two middle items, not the lower one and not their mean. *)
Theorem time_med_is_upper_middle st report_size :
  PrimFloat.eqb (s_total_time st) 0 = false ->
  times_nonempty (s_statistics st) ->
  Forall (fun it => FloatKey.is_number (by_time_sum it)) (s_statistics st) ->
  exists rows,
    fst (generate_report report_size st) = Return rows /\
    Forall2
      (fun it r =>
         url r = fst it /\
         (Forall FloatKey.is_number (snd it) ->
          time_med r = nth (List.length (snd it) / 2) (Py.sorted (snd it)) 0%float /\
          Permutation (Py.sorted (snd it)) (snd it) /\
          StronglySorted (fun a b => PrimFloat.leb a b = true) (Py.sorted (snd it))))
      (Py.nlargest report_size by_time_sum (s_statistics st)) rows.
Proof.
  intros H0 Hne _.
  destruct (generate_report_ok st report_size H0 Hne) as (rows & Hr & HF).
  exists rows. split; [exact Hr|].
  eapply Forall2_impl; [|exact HF].
  intros it r (Hu & _ & _ & _ & Hm). split; [exact Hu|].
  intros Hnum. repeat split.
  - exact Hm.
  - apply stable_sort_perm.
  - now apply sorted_ascending.
Qed.

(** The statement above at [even_times], one URL with the times 0.25 and 0.75. *)
Lemma time_med_is_upper_middle_witness :
  PrimFloat.eqb (s_total_time even_times) 0 = false /\
  times_nonempty (s_statistics even_times) /\
  Forall (fun it => FloatKey.is_number (by_time_sum it)) (s_statistics even_times) /\
  exists rows,
    fst (generate_report 1 even_times) = Return rows /\
    Forall2
      (fun it r =>
         url r = fst it /\
         (Forall FloatKey.is_number (snd it) ->
          time_med r = nth (List.length (snd it) / 2) (Py.sorted (snd it)) 0%float /\
          Permutation (Py.sorted (snd it)) (snd it) /\
          StronglySorted (fun a b => PrimFloat.leb a b = true) (Py.sorted (snd it))))
      (Py.nlargest 1 by_time_sum (s_statistics even_times)) rows.
Proof.
  assert (H0 : PrimFloat.eqb (s_total_time even_times) 0 = false) by reflexivity.
  assert (Hne : times_nonempty (s_statistics even_times))
    by (repeat constructor; discriminate).
  assert (Hnum : Forall (fun it => FloatKey.is_number (by_time_sum it))
                   (s_statistics even_times))
    by (repeat constructor).
  split; [exact H0|]. split; [exact Hne|]. split; [exact Hnum|].
  exact (time_med_is_upper_middle even_times 1 H0 Hne Hnum).
Defined.

(** C3, refuted as stated: for the two times 0.25 and 0.75 the report
    gives the median 0.75, while the lower-middle item of the sorted
    times, at index [n/2 - 1], is 0.25. *)
Lemma time_med_lower_middle_counterexample :
  let times := [0.25; 0.75]%float in
  Nat.even (List.length times) = true /\
  nth (List.length times / 2 - 1) (Py.sorted times) 0%float = 0.25%float /\
  fst (generate_report 1 {| s_statistics := [("/a", times)]; s_total_time := 1 |})
  = Return [{| url := "/a"; count := 2; count_perc := 2; time_sum := 1;
               time_perc := 1; time_avg := 0.5; time_max := 0.75;
               time_med := 0.75 |}] /\
  PrimFloat.eqb 0.75 0.25 = false.
Proof. vm_compute. repeat split; reflexivity. Qed.

(** C5 (as the code has it): [time_perc] is the plain quotient
    [time_sum / total_time], with no guard.  When there is a row to build,
    a zero [total_time] makes the division raise [ZeroDivisionError] and no
    report is returned; any other [total_time] gives every row
    [time_perc = time_sum / total_time]. *)
Theorem time_perc_is_unguarded_quotient st report_size :
  (1 <= report_size)%Z ->
  s_statistics st <> [] ->
  times_nonempty (s_statistics st) ->
  if PrimFloat.eqb (s_total_time st) 0
  then fst (generate_report report_size st) = Raise ZeroDivisionError
  else exists rows,
         fst (generate_report report_size st) = Return rows /\
         rows <> [] /\
         Forall (fun r => time_perc r = PrimFloat.div (time_sum r) (s_total_time st))
                rows.
Proof.
  intros Hn Hs Hne. destruct (PrimFloat.eqb (s_total_time st) 0) eqn:H0.
  - now apply generate_report_zero.
  - destruct (generate_report_ok st report_size H0 Hne) as (rows & Hr & HF).
    exists rows. split; [exact Hr|]. split.
    + apply Forall2_length_eq in HF. rewrite nlargest_length in HF.
      intros ->. destruct (s_statistics st); [congruence|]. simpl in HF. lia.
    + clear Hr. induction HF as [|it r l l' (_ & _ & Hsum & Hp & _) _ IH];
        constructor; auto.
      now rewrite Hsum.
Qed.

(** The statement above at [two_urls], whose [total_time] is 1.5. *)
Lemma time_perc_is_unguarded_quotient_witness :
  (1 <= 2)%Z /\
  s_statistics two_urls <> [] /\
  times_nonempty (s_statistics two_urls) /\
  exists rows,
    fst (generate_report 2 two_urls) = Return rows /\
    rows <> [] /\
    Forall (fun r => time_perc r = PrimFloat.div (time_sum r) (s_total_time two_urls))
           rows.
Proof.
  assert (Hn : (1 <= 2)%Z) by lia.
  assert (Hs : s_statistics two_urls <> []) by discriminate.
  assert (Hne : times_nonempty (s_statistics two_urls))
    by (repeat constructor; discriminate).
  repeat (split; [assumption|]).
  exact (time_perc_is_unguarded_quotient two_urls 2 Hn Hs Hne).
Defined.

(** C5, refuted as stated: with a zero [total_time] the report is not
    built with [time_perc = 0.0]; the division raises. *)
Lemma time_perc_zero_total_counterexample :
  PrimFloat.eqb (s_total_time zero_times) 0 = true /\
  fst (generate_report 1000 zero_times) = Raise ZeroDivisionError.
Proof. vm_compute. split; reflexivity. Qed.

(** C7 (as the code has it): when [total_time] is not zero and the time
    sums are numbers, the report for [report_size >= 1] has exactly
    [min(report_size, len(statistics))] rows; they are the rows of a
    selection [chosen] of the dict's entries, every row's [time_sum] is at
    least that of every entry left out, and every row's [time_sum] is at
    least that of every later row. *)
Theorem report_is_top_n_descending st report_size :
  (1 <= report_size)%Z ->
  PrimFloat.eqb (s_total_time st) 0 = false ->
  times_nonempty (s_statistics st) ->
  Forall (fun it => FloatKey.is_number (by_time_sum it)) (s_statistics st) ->
  exists rows chosen rest,
    fst (generate_report report_size st) = Return rows /\
    Z.of_nat (List.length rows)
    = Z.min report_size (Z.of_nat (List.length (s_statistics st))) /\
    Permutation (s_statistics st) (chosen ++ rest) /\
    Forall2 (fun it r => url r = fst it /\ time_sum r = by_time_sum it) chosen rows /\
    StronglySorted (fun r1 r2 => FloatKey.ge (time_sum r1) (time_sum r2)) rows /\
    Forall (fun r => Forall (fun it => FloatKey.ge (time_sum r) (by_time_sum it)) rest)
           rows.
Proof.
  intros Hn H0 Hne Hnum.
  destruct (generate_report_ok st report_size H0 Hne) as (rows & Hr & HF).
  destruct (nlargest_spec by_time_sum report_size (s_statistics st) Hnum)
    as (rest & Hperm & Hlen & Hsorted & Hdom).
  set (chosen := Py.nlargest report_size by_time_sum (s_statistics st)) in *.
  assert (Hkeys : map time_sum rows = map by_time_sum chosen).
  { eapply Forall2_map_eq; [|exact HF].
    intros it r (_ & _ & Hsum & _). exact Hsum. }
  exists rows, chosen, rest. repeat split; auto.
  - rewrite <- (Forall2_length_eq _ _ _ HF), Hlen. lia.
  - eapply Forall2_impl; [|exact HF]. intros it r (Hu & _ & Hsum & _).
    split; [exact Hu|exact Hsum].
  - apply (StronglySorted_map time_sum (fun a b => FloatKey.ge a b)).
    rewrite Hkeys.
    apply (StronglySorted_map by_time_sum (fun a b => FloatKey.ge a b)).
    exact Hsorted.
  - apply (Forall_map time_sum
             (fun x => Forall (fun it => FloatKey.ge x (by_time_sum it)) rest)).
    rewrite Hkeys. apply Forall_map. exact Hdom.
Qed.

(** The statement above at [two_urls] with [report_size = 1]. *)
Lemma report_is_top_n_descending_witness :
  (1 <= 1)%Z /\
  PrimFloat.eqb (s_total_time two_urls) 0 = false /\
  times_nonempty (s_statistics two_urls) /\
  Forall (fun it => FloatKey.is_number (by_time_sum it)) (s_statistics two_urls) /\
  exists rows chosen rest,
    fst (generate_report 1 two_urls) = Return rows /\
    Z.of_nat (List.length rows)
    = Z.min 1 (Z.of_nat (List.length (s_statistics two_urls))) /\
    Permutation (s_statistics two_urls) (chosen ++ rest) /\
    Forall2 (fun it r => url r = fst it /\ time_sum r = by_time_sum it) chosen rows /\
    StronglySorted (fun r1 r2 => FloatKey.ge (time_sum r1) (time_sum r2)) rows /\
    Forall (fun r => Forall (fun it => FloatKey.ge (time_sum r) (by_time_sum it)) rest)
           rows.
Proof.
  assert (Hn : (1 <= 1)%Z) by lia.
  assert (H0 : PrimFloat.eqb (s_total_time two_urls) 0 = false) by reflexivity.
  assert (Hne : times_nonempty (s_statistics two_urls))
    by (repeat constructor; discriminate).
  assert (Hnum : Forall (fun it => FloatKey.is_number (by_time_sum it))
                   (s_statistics two_urls))
    by (repeat constructor).
  repeat (split; [assumption|]).
  exact (report_is_top_n_descending two_urls 1 Hn H0 Hne Hnum).
Defined.

(** C7, refuted as stated: an aggregation of two URLs whose requests all
    took 0.000 s has [total_time = 0]; for [report_size = 5] the claim
    promises [min(5, 2) = 2] rows, but no report is returned. *)
Lemma report_rows_zero_total_counterexample :
  (1 <= 5)%Z /\
  List.length (s_statistics zero_times_two) = 2%nat /\
  fst (generate_report 5 zero_times_two) = Raise ZeroDivisionError.
Proof. vm_compute. repeat split; try reflexivity. discriminate. Qed.

(** C9: a second run of [generate_report] on the objects the first run
    leaves behind gives the same outcome: the same rows in the same order,
    or the same exception. *)
Theorem generate_report_idempotent st report_size :
  fst (generate_report report_size (snd (generate_report report_size st)))
  = fst (generate_report report_size st).
Proof. now rewrite !generate_report_run. Qed.

(** C10: [generate_report] leaves what it was handed as it was: the dict,
    the list of times of every URL, and [total_time]; also when it
    raises. *)
Theorem generate_report_frame st report_size :
  let st' := snd (generate_report report_size st) in
  s_statistics st' = s_statistics st /\
  (forall u, times_of (s_statistics st') u = times_of (s_statistics st) u) /\
  s_total_time st' = s_total_time st.
Proof. rewrite generate_report_run. cbn. repeat split. Qed.

(** ** Running [process_logs] *)

Lemma with_log_same w : with_log (w_log w) w = w.
Proof. now destruct w. Qed.

Lemma process_line_run a log w :
  process_line a log w
  = (Return (aggregate_line a log),
     with_log (w_log w ++ parse_error_log [log]) w).
Proof.
  unfold process_line, aggregate_line, parse_error_log. cbn [flat_map].
  destruct (parse_log_line log) as [parsed|e].
  - unfold St.ret. cbn [app]. now rewrite app_nil_r, with_log_same.
  - rewrite app_nil_r. reflexivity.
Qed.

Lemma process_loop_run logs a w :
  for_each process_line a logs w
  = (Return (fold_left aggregate_line logs a),
     with_log (w_log w ++ parse_error_log logs) w).
Proof.
  revert a w. induction logs as [|log logs IH]; intros a w.
  - simpl. unfold St.ret. now rewrite app_nil_r, with_log_same.
  - cbn [for_each fold_left]. unfold St.bind. rewrite process_line_run, IH.
    f_equal. cbn [with_log w_log]. unfold parse_error_log. cbn [flat_map].
    now rewrite <- app_assoc, app_nil_r.
Qed.

Lemma errors_count_fold logs a :
  errors_count (fold_left aggregate_line logs a)
  = (errors_count a + parse_errors logs)%nat.
Proof.
  revert a. unfold parse_errors.
  induction logs as [|log logs IH]; intros a; simpl; [lia|].
  rewrite IH. unfold aggregate_line.
  destruct (parse_log_line log); simpl; lia.
Qed.

(** [process_logs], step by step. *)
Lemma process_logs_run logs w :
  let a := fold_left aggregate_line logs
             {| statistics := []; total_time := 0; errors_count := 0 |} in
  let w1 := with_log (w_log w ++ parse_error_log logs) w in
  process_logs logs w
  = match Py.int_truediv (Z.of_nat (parse_errors logs))
                         (Z.of_nat (List.length logs)) with
    | Raise e => (Raise e, w1)
    | Return rate =>
        if PrimFloat.ltb (ERRORS_THRESHOLD (w_config w)) rate then
          (Raise (RuntimeError "Too many errors parsing log lines."),
           with_log (w_log w1 ++ [ERROR "Too many errors parsing log lines. Exiting."]) w1)
        else (Return (statistics a, total_time a), w1)
    end.
Proof.
  intros a w1. unfold process_logs. unfold St.bind at 1.
  rewrite process_loop_run. unfold St.bind at 1, St.lift at 1.
  rewrite errors_count_fold. cbn [errors_count Nat.add].
  destruct (Py.int_truediv _ _) as [rate|e]; [|reflexivity].
  unfold St.bind at 1, St.gets at 1. cbn [w_config with_log].
  destruct (PrimFloat.ltb _ rate); reflexivity.
Qed.

Lemma fold_count_error logs a :
  fold_left aggregate_line logs (count_error a)
  = count_error (fold_left aggregate_line logs a).
Proof.
  revert a. induction logs as [|log logs IH]; intros a; [reflexivity|].
  cbn [fold_left]. rewrite <- IH. f_equal.
  unfold aggregate_line. now destruct (parse_log_line log).
Qed.

(** Rejected lines leave no trace in what [process_logs] returns. *)
Lemma rejected_lines_leave_statistics logs a :
  let accepted := filter (fun l => negb (raises (parse_log_line l))) logs in
  statistics (fold_left aggregate_line logs a)
  = statistics (fold_left aggregate_line accepted a) /\
  total_time (fold_left aggregate_line logs a)
  = total_time (fold_left aggregate_line accepted a).
Proof.
  cbn zeta. revert a. induction logs as [|log logs IH]; intros a;
    [split; reflexivity|].
  cbn [filter fold_left].
  destruct (parse_log_line log) as [parsed|e] eqn:E; cbn [raises negb].
  - cbn [fold_left]. apply IH.
  - assert (aggregate_line a log = count_error a) as ->
      by (unfold aggregate_line; now rewrite E).
    rewrite fold_count_error. cbn [statistics total_time count_error]. apply IH.
Qed.

(** The dict that [process_logs] builds has one entry per URL and no empty
    list of times. *)
Lemma dict_append_keys d k v :
  map fst (dict_append d k v)
  = if existsb (String.eqb k) (map fst d) then map fst d else map fst d ++ [k].
Proof.
  induction d as [|[k' vs] d IH]; simpl; [reflexivity|].
  rewrite (String.eqb_sym k k'). destruct (String.eqb k' k); simpl; [reflexivity|].
  rewrite IH. now destruct (existsb _ _).
Qed.

Lemma dict_append_well_formed d k v :
  NoDup (map fst d) /\ times_nonempty d ->
  NoDup (map fst (dict_append d k v)) /\ times_nonempty (dict_append d k v).
Proof.
  intros [Hk Hne]. split.
  - rewrite dict_append_keys. destruct (existsb _ _) eqn:E; [exact Hk|].
    apply (Permutation_NoDup (l := k :: map fst d));
      [apply Permutation_cons_append|].
    constructor; [|exact Hk]. intros Hin.
    assert (existsb (String.eqb k) (map fst d) = true); [|congruence].
    apply existsb_exists. exists k. split; [exact Hin|apply String.eqb_refl].
  - unfold times_nonempty in *. induction Hne as [|[k' vs] d Hx Hd IH]; simpl.
    + repeat constructor. discriminate.
    + inversion Hk; subst. destruct (String.eqb k' k).
      * constructor; [|exact Hd]. simpl. now destruct vs.
      * constructor; [exact Hx|]. now apply IH.
Qed.

Lemma process_logs_well_formed logs w stats total :
  fst (process_logs logs w) = Return (stats, total) ->
  NoDup (map fst stats) /\ times_nonempty stats.
Proof.
  rewrite process_logs_run.
  destruct (Py.int_truediv _ _) as [rate|]; [|discriminate].
  destruct (PrimFloat.ltb _ rate); [discriminate|].
  cbn [fst]. intros [= <- _].
  assert (G : forall a, NoDup (map fst (statistics a)) /\ times_nonempty (statistics a) ->
                        NoDup (map fst (statistics (fold_left aggregate_line logs a))) /\
                        times_nonempty (statistics (fold_left aggregate_line logs a))).
  { induction logs as [|log logs IH]; intros a Ha; [exact Ha|].
    cbn [fold_left]. apply IH. unfold aggregate_line.
    destruct (parse_log_line log); cbn [statistics record_time count_error];
      [now apply dict_append_well_formed|exact Ha]. }
  apply G. split; constructor.
Qed.

(** ** The claims about [process_logs] and [parse_log_line] *)

(** C2: for a non-empty sequence of lines, [process_logs] raises its
    [RuntimeError] exactly when the quotient of the number of rejected
    lines by the number of lines is greater than the configured threshold;
    otherwise, and so when the two are equal, it returns the aggregation. *)
Theorem process_logs_aborts_iff_rate_exceeds logs w :
  logs <> [] ->
  exists rate,
    Py.int_truediv (Z.of_nat (parse_errors logs)) (Z.of_nat (List.length logs))
    = Return rate /\
    (raises (fst (process_logs logs w)) = true <->
     PrimFloat.ltb (ERRORS_THRESHOLD (w_config w)) rate = true) /\
    (PrimFloat.ltb (ERRORS_THRESHOLD (w_config w)) rate = true ->
     fst (process_logs logs w)
     = Raise (RuntimeError "Too many errors parsing log lines.")) /\
    (PrimFloat.ltb (ERRORS_THRESHOLD (w_config w)) rate = false ->
     exists stats total, fst (process_logs logs w) = Return (stats, total)) /\
    (PrimFloat.eqb rate (ERRORS_THRESHOLD (w_config w)) = true ->
     exists stats total, fst (process_logs logs w) = Return (stats, total)).
Proof.
  intros Hne.
  assert (Hrate : exists rate,
             Py.int_truediv (Z.of_nat (parse_errors logs))
                            (Z.of_nat (List.length logs)) = Return rate).
  { destruct logs; [congruence|]. simpl. eauto. }
  destruct Hrate as [rate Hrate]. exists rate. split; [exact Hrate|].
  rewrite process_logs_run, Hrate.
  destruct (PrimFloat.ltb (ERRORS_THRESHOLD (w_config w)) rate) eqn:E; cbn.
  - repeat split; auto; try discriminate.
    intros Heq. apply FloatOrder.eqb_not_ltb in Heq. congruence.
  - repeat split; eauto; discriminate.
Qed.

(** The statement above at a log of one well-formed line. *)
Lemma process_logs_aborts_iff_rate_exceeds_witness :
  [Str sample_line] <> [] /\
  exists rate,
    Py.int_truediv (Z.of_nat (parse_errors [Str sample_line]))
                   (Z.of_nat (List.length [Str sample_line]))
    = Return rate /\
    (raises (fst (process_logs [Str sample_line] (start gzip_log_fs))) = true <->
     PrimFloat.ltb (ERRORS_THRESHOLD (w_config (start gzip_log_fs))) rate = true) /\
    (PrimFloat.ltb (ERRORS_THRESHOLD (w_config (start gzip_log_fs))) rate = true ->
     fst (process_logs [Str sample_line] (start gzip_log_fs))
     = Raise (RuntimeError "Too many errors parsing log lines.")) /\
    (PrimFloat.ltb (ERRORS_THRESHOLD (w_config (start gzip_log_fs))) rate = false ->
     exists stats total,
       fst (process_logs [Str sample_line] (start gzip_log_fs)) = Return (stats, total)) /\
    (PrimFloat.eqb rate (ERRORS_THRESHOLD (w_config (start gzip_log_fs))) = true ->
     exists stats total,
       fst (process_logs [Str sample_line] (start gzip_log_fs)) = Return (stats, total)).
Proof.
  assert (H : [Str sample_line] <> []) by discriminate.
  split; [exact H|].
  exact (process_logs_aborts_iff_rate_exceeds [Str sample_line] (start gzip_log_fs) H).
Defined.

(** The boundary on an example: one rejected line in ten is the rate 0.1,
    equal to the default threshold, and the aggregation is returned; two in
    ten abort. *)
Example threshold_boundary :
  let good := Str sample_line in
  let bad := Str "garbage" in
  exception_of (fst (process_logs (bad :: repeat good 9) (start gzip_log_fs))) = None /\
  exception_of (fst (process_logs (bad :: bad :: repeat good 8) (start gzip_log_fs)))
  = Some (RuntimeError "Too many errors parsing log lines.").
Proof. vm_compute. split; reflexivity. Qed.

(** C4 (as the code has it): on an empty sequence of lines [process_logs]
    fails in the division [errors_count / len(logs)], with the
    [ZeroDivisionError] of that division; nothing is logged and there is no
    error of its own for an empty log. *)
Theorem process_logs_empty_raises_ZeroDivisionError w :
  process_logs [] w = (Raise ZeroDivisionError, w).
Proof. reflexivity. Qed.

(** C4, refuted as stated: a run over an empty log file ends with the
    uncaught [ZeroDivisionError] of the rate division, the same exception
    as the unrelated division by a zero [total_time] in [generate_report]. *)
Lemma empty_log_counterexample :
  fst (read_log_file "./nginx-access-ui.log-20170630" (start empty_log_fs))
  = Return [] /\
  exception_of (fst (process_logs [] (start empty_log_fs))) = Some ZeroDivisionError /\
  exception_of (fst (main None (start empty_log_fs))) = Some ZeroDivisionError /\
  exception_of (fst (generate_report 1 zero_times)) = Some ZeroDivisionError.
Proof. vm_compute. repeat split; reflexivity. Qed.

Lemma split_space_nonempty s : PyStr.split_space s <> [].
Proof.
  destruct s as [|c s]; simpl; [discriminate|].
  destruct (Ascii.eqb c " "); [discriminate|].
  destruct (PyStr.split_space s); discriminate.
Qed.

Lemma last_item_last parts :
  parts <> [] -> PyStr.last_item parts = Return (last parts "").
Proof.
  intros H. destruct (exists_last H) as (l & a & ->).
  unfold PyStr.last_item. now rewrite rev_app_distr, last_last.
Qed.

(** [parse_log_line] on a text line, case by case. *)
Lemma parse_log_line_run s :
  let parts := PyStr.split_space s in
  parse_log_line (Str s)
  = match nth_error parts 7 with
    | None => Raise IndexError
    | Some u =>
        match PyFloat.float (last parts "") with
        | Raise e => Raise e
        | Return x => Return {| pl_url := u; pl_request_time := x |}
        end
    end.
Proof.
  intros parts. unfold parse_log_line, Py.index. fold parts.
  destruct (nth_error parts 7); [|reflexivity].
  unfold parts. now rewrite (last_item_last _ (split_space_nonempty s)).
Qed.

(** C6 (as the code has it): [parse_log_line] rejects a text line exactly
    when [split(' ')] gives fewer than eight fields or [float] rejects the
    last field.  Otherwise it returns the eighth field as the URL, empty or
    not, with the request time.  A rejected line leaves [statistics] and
    [total_time] as they were and adds one to [errors_count]. *)
Theorem parse_log_line_fails_iff s :
  let parts := PyStr.split_space s in
  (raises (parse_log_line (Str s)) = true <->
   (List.length parts < 8)%nat \/ raises (PyFloat.float (last parts "")) = true) /\
  (forall x,
     (8 <= List.length parts)%nat ->
     PyFloat.float (last parts "") = Return x ->
     parse_log_line (Str s)
     = Return {| pl_url := nth 7 parts ""; pl_request_time := x |}) /\
  (forall a w,
     raises (parse_log_line (Str s)) = true ->
     fst (process_line a (Str s) w)
     = Return {| statistics := statistics a;
                 total_time := total_time a;
                 errors_count := S (errors_count a) |}).
Proof.
  intros parts. split; [|split].
  - rewrite parse_log_line_run. fold parts.
    destruct (nth_error parts 7) as [u|] eqn:E.
    + assert (L : (7 < List.length parts)%nat)
        by (apply nth_error_Some; congruence).
      destruct (PyFloat.float (last parts "")); cbn; split; intros H; auto.
      destruct H as [H|H]; [lia|discriminate].
    + apply nth_error_None in E. cbn. split; auto. intros _. left. lia.
  - intros x L Hx. rewrite parse_log_line_run. fold parts. rewrite Hx.
    destruct (nth_error parts 7) as [u|] eqn:E.
    + now rewrite (nth_error_nth _ _ _ E).
    + apply nth_error_None in E. lia.
  - intros a w H. rewrite process_line_run. cbn [fst]. unfold aggregate_line.
    destruct (parse_log_line (Str s)); [discriminate|reflexivity].
Qed.

(** C6, refuted as stated: a line whose URL field is empty is not
    rejected; it enters the statistics under the URL [""]. *)
Lemma empty_url_counterexample :
  nth_error (PyStr.split_space empty_url_line) 7 = Some "" /\
  parse_log_line (Str empty_url_line)
  = Return {| pl_url := ""; pl_request_time := 0.390 |} /\
  fst (process_logs [Str empty_url_line] (start gzip_log_fs))
  = Return ([("", [0.390%float])], 0.390%float).
Proof. vm_compute. repeat split; reflexivity. Qed.

(** ** The claims about reading the log and about [main] *)

Lemma parse_log_line_bytes b : parse_log_line (Bytes b) = Raise TypeError.
Proof. reflexivity. Qed.

(** A file whose name does not end in [.gz] is read as [bytes] lines. *)
Lemma read_log_file_plain log_file content w :
  PyStr.endswith log_file ".gz" = false ->
  file_bytes (w_fs w) log_file = Return content ->
  read_log_file log_file w = (Return (map Bytes (PyStr.binary_lines content)), w).
Proof.
  intros Hgz Hfile. unfold read_log_file, St.bind, St.gets.
  now rewrite Hfile, Hgz.
Qed.

(** ... and [process_logs] counts every one of them as an error. *)
Lemma parse_errors_bytes lines :
  parse_errors (map Bytes lines) = List.length lines.
Proof.
  unfold parse_errors. induction lines as [|l lines IH]; simpl; [reflexivity|].
  now rewrite IH.
Qed.

(** C1, the plain-text branch on an example: the log
    [nginx-access-ui.log-20170630] is opened in mode ['rb'] and its line
    arrives as a [bytes] object, on which [split(' ')] raises [TypeError];
    the one line of the file is an error, the rate 1.0 exceeds the
    threshold and the run ends in [RuntimeError] without a report.  The
    same line read through [gzip.open(..., 'rt')] is text, is parsed, and
    the report is written. *)
Theorem plain_log_lines_are_bytes :
  PyStr.endswith "./nginx-access-ui.log-20170630" ".gz" = false /\
  fst (read_log_file "./nginx-access-ui.log-20170630" (start plain_log_fs))
  = Return [Bytes sample_line] /\
  parse_log_line (Bytes sample_line) = Raise TypeError /\
  fst (main None (start plain_log_fs))
  = Raise (RuntimeError "Too many errors parsing log lines.") /\
  w_reports (snd (main None (start plain_log_fs))) = [] /\
  fst (read_log_file "./nginx-access-ui.log-20170630.gz" (start gzip_log_fs))
  = Return [Str sample_line] /\
  parse_log_line (Str sample_line)
  = Return {| pl_url := "/api/v2/banner"; pl_request_time := 0.390 |} /\
  fst (main None (start gzip_log_fs)) = Return tt /\
  map fst (w_reports (snd (main None (start gzip_log_fs))))
  = ["./report-og-2017063.html"].
Proof. vm_compute. repeat split; reflexivity. Qed.

Lemma main_config_keeps args w :
  w_fs (snd (main_config args w)) = w_fs w /\
  w_reports (snd (main_config args w)) = w_reports w.
Proof.
  unfold main_config. destruct args as [p|]; [|split; reflexivity].
  destruct (String.eqb p ""); [split; reflexivity|].
  unfold parse_config, St.bind, St.gets. cbn.
  destruct (json_file (w_fs w) p) as [[c|]|]; split; reflexivity.
Qed.

Lemma setup_logging_keeps log_path w :
  let w' := snd (setup_logging log_path w) in
  w_config w' = w_config w /\ w_log w' = w_log w /\ w_reports w' = w_reports w.
Proof.
  unfold setup_logging. destruct log_path as [p|]; [|repeat split].
  unfold St.bind, St.gets. cbn.
  destruct (write_error (w_fs w) p); repeat split.
Qed.

(** C8 (as the code has it): when the configuration has been loaded,
    logging has been set up (no [LOGGING_PATH], or one that can be opened),
    the log directory can then be listed and none of its names starts with
    [nginx-access-ui.log], the run logs the two "No log files found"
    errors, writes no report and returns normally. *)
Theorem main_without_log_file args w w1 w2 names :
  main_config args w = (Return tt, w1) ->
  setup_logging (LOGGING_PATH (w_config w1)) w1 = (Return tt, w2) ->
  listdir (w_fs w2) (LOG_DIR (w_config w2)) = Some names ->
  filter (fun f => PyStr.startswith f "nginx-access-ui.log") names = [] ->
  exists w',
    main args w = (Return tt, w') /\
    w_reports w' = w_reports w /\
    w_log w' = w_log w1 ++ [ERROR "No log files found.";
                            ERROR "No log files found. Exiting."].
Proof.
  intros Hcfg Hsetup Hdir Hnone.
  pose proof (main_config_keeps args w) as [_ Hrep]. rewrite Hcfg in Hrep.
  cbn [snd] in Hrep.
  pose proof (setup_logging_keeps (LOGGING_PATH (w_config w1)) w1) as Hkeep.
  cbn zeta in Hkeep. rewrite Hsetup in Hkeep. cbn [snd] in Hkeep.
  destruct Hkeep as (Hc2 & Hl2 & Hr2).
  eexists. split; [|split].
  - unfold main. unfold St.bind at 1. rewrite Hcfg.
    unfold St.bind at 1, St.gets at 1. unfold St.bind at 1. rewrite Hsetup.
    unfold get_latest_log_file, logging_error.
    unfold St.bind, St.gets, St.modify, St.ret.
    rewrite Hdir, Hnone. reflexivity.
  - cbn. congruence.
  - cbn. rewrite Hl2. now rewrite <- app_assoc.
Qed.

(** The statement above at a directory that holds no nginx log, without
    [--config]. *)
Lemma main_without_log_file_witness :
  main_config None (start no_log_fs) = (Return tt, start no_log_fs) /\
  setup_logging (LOGGING_PATH (w_config (start no_log_fs))) (start no_log_fs)
  = (Return tt, start no_log_fs) /\
  listdir (w_fs (start no_log_fs)) (LOG_DIR (w_config (start no_log_fs)))
  = Some ["README"; "access.log"] /\
  filter (fun f => PyStr.startswith f "nginx-access-ui.log") ["README"; "access.log"]
  = [] /\
  exists w',
    main None (start no_log_fs) = (Return tt, w') /\
    w_reports w' = w_reports (start no_log_fs) /\
    w_log w' = w_log (start no_log_fs) ++ [ERROR "No log files found.";
                                           ERROR "No log files found. Exiting."].
Proof.
  assert (Hcfg : main_config None (start no_log_fs) = (Return tt, start no_log_fs))
    by reflexivity.
  assert (Hsetup : setup_logging (LOGGING_PATH (w_config (start no_log_fs)))
                     (start no_log_fs)
                   = (Return tt, start no_log_fs)) by reflexivity.
  assert (Hdir : listdir (w_fs (start no_log_fs))
                   (LOG_DIR (w_config (start no_log_fs)))
                 = Some ["README"; "access.log"]) by reflexivity.
  assert (Hnone : filter (fun f => PyStr.startswith f "nginx-access-ui.log")
                    ["README"; "access.log"] = []) by reflexivity.
  repeat (split; [assumption|]).
  exact (main_without_log_file None (start no_log_fs) (start no_log_fs)
           (start no_log_fs) ["README"; "access.log"] Hcfg Hsetup Hdir Hnone).
Defined.

(** C8, refuted as stated: when the configuration file names a log
    directory that does not exist, [os.listdir] raises [FileNotFoundError];
    [main] does not catch it, nothing is logged, and the run ends with that
    exception. *)
Lemma missing_log_dir_counterexample :
  fst (main_config (Some "conf.json") (start missing_dir_fs)) = Return tt /\
  LOG_DIR (w_config (snd (main_config (Some "conf.json") (start missing_dir_fs))))
  = "./logs" /\
  listdir (w_fs (start missing_dir_fs)) "./logs" = None /\
  fst (main (Some "conf.json") (start missing_dir_fs)) = Raise FileNotFoundError /\
  w_log (snd (main (Some "conf.json") (start missing_dir_fs))) = [] /\
  w_reports (snd (main (Some "conf.json") (start missing_dir_fs))) = [].
Proof. vm_compute. repeat split; reflexivity. Qed.

(** * Further properties of the module *)

(** ** The order of strings *)

Lemma string_compare_refl s : String.compare s s = Eq.
Proof.
  pose proof (String.compare_antisym s s) as H.
  destruct (String.compare s s); simpl in H; congruence.
Qed.

Lemma string_leb_refl s : String.leb s s = true.
Proof. unfold String.leb. now rewrite string_compare_refl. Qed.

Lemma string_ltb_leb a b : String.ltb a b = true -> String.leb a b = true.
Proof. unfold String.ltb, String.leb. now destruct (String.compare a b). Qed.

Lemma string_not_ltb_leb a b : String.ltb a b = false -> String.leb b a = true.
Proof.
  unfold String.ltb, String.leb. rewrite (String.compare_antisym b a).
  now destruct (String.compare a b).
Qed.

Lemma string_ltb_not_leb a b : String.ltb a b = true -> String.leb b a = false.
Proof.
  unfold String.ltb, String.leb. rewrite (String.compare_antisym b a).
  now destruct (String.compare a b).
Qed.

Lemma string_leb_trans a b c :
  String.leb a b = true -> String.leb b c = true -> String.leb a c = true.
Proof.
  unfold String.leb. revert b c.
  induction a as [|x a IH]; intros [|y b] [|z c]; simpl; try congruence.
  unfold Ascii.compare.
  destruct (N.compare_spec (N_of_ascii x) (N_of_ascii y)),
           (N.compare_spec (N_of_ascii y) (N_of_ascii z)),
           (N.compare_spec (N_of_ascii x) (N_of_ascii z));
    try congruence; try lia.
  apply IH.
Qed.

(** A string is smaller than each of its proper extensions. *)
Lemma string_ltb_append s t : t <> "" -> String.ltb s (String.append s t) = true.
Proof.
  intros Ht. unfold String.ltb. induction s as [|c s IH]; simpl.
  - destruct t; [congruence|reflexivity].
  - assert (E : Ascii.compare c c = Eq)
      by (unfold Ascii.compare; apply N.compare_refl).
    rewrite E. exact IH.
Qed.

Lemma prefix_append p s t :
  String.prefix p s = true -> String.prefix p (String.append s t) = true.
Proof.
  revert s. induction p as [|a p IH]; intros s H.
  - now destruct (String.append s t).
  - destruct s as [|b s]; simpl in *; [discriminate|].
    destruct (ascii_dec a b); [now apply IH|discriminate].
Qed.

(** [max] on a non-empty list of names: one of them, not below any. *)
Lemma str_max_spec x xs :
  exists m, PyStr.max (x :: xs) = Return m /\ In m (x :: xs) /\
            Forall (fun y => String.leb y m = true) (x :: xs).
Proof.
  simpl. eexists. split; [reflexivity|].
  assert (G : forall seen cur,
             In cur (seen ++ [cur]) ->
             Forall (fun y => String.leb y cur = true) (seen ++ [cur]) ->
             let m := fold_left (fun m y => if String.ltb m y then y else m) xs cur in
             In m (seen ++ cur :: xs) /\
             Forall (fun y => String.leb y m = true) (seen ++ cur :: xs)).
  { induction xs as [|y xs IH]; intros seen cur Hin Hall; cbn [fold_left].
    - split; assumption.
    - destruct (String.ltb cur y) eqn:E.
      + specialize (IH (seen ++ [cur]) y).
        rewrite <- !app_assoc in IH. cbn [app] in IH. apply IH.
        * apply in_or_app. right. right. now left.
        * apply Forall_app in Hall as [Hs Hc].
          apply Forall_app. split.
          -- eapply Forall_impl; [|exact Hs]. intros z Hz.
             apply string_leb_trans with cur; [exact Hz|now apply string_ltb_leb].
          -- repeat constructor; [now apply string_ltb_leb|apply string_leb_refl].
      + specialize (IH (seen ++ [y]) cur).
        assert (P : Permutation (seen ++ cur :: y :: xs) ((seen ++ [y]) ++ cur :: xs)).
        { rewrite <- app_assoc. cbn [app]. apply Permutation_app_head, perm_swap. }
        destruct IH as [I1 I2].
        * apply in_or_app. right. now left.
        * apply Forall_app in Hall as [Hs Hc].
          rewrite <- app_assoc. cbn [app]. apply Forall_app. split; [exact Hs|].
          repeat constructor; [now apply string_not_ltb_leb|apply string_leb_refl].
        * split.
          -- eapply Permutation_in; [symmetry; exact P|exact I1].
          -- eapply Permutation_Forall; [symmetry; exact P|exact I2]. }
  apply (G [] x); cbn [app].
  - now left.
  - repeat constructor. apply string_leb_refl.
Qed.

(** ** [get_latest_log_file] *)

Lemma get_latest_log_file_run log_dir w names :
  listdir (w_fs w) log_dir = Some names ->
  let log_files := filter (fun f => PyStr.startswith f "nginx-access-ui.log") names in
  log_files <> [] ->
  exists m,
    get_latest_log_file log_dir w = (Return (Some m), w) /\
    In m log_files /\
    Forall (fun y => String.leb y m = true) log_files.
Proof.
  intros Hdir log_files Hne.
  unfold get_latest_log_file, St.bind at 1, St.gets at 1.
  rewrite Hdir. fold log_files.
  destruct log_files as [|x xs]; [congruence|].
  destruct (str_max_spec x xs) as (m & Hm & Hin & Hall).
  exists m. unfold St.bind, St.lift, St.ret. rewrite Hm. auto.
Qed.

(** X1: when the directory can be listed and holds a name that starts with
    [nginx-access-ui.log], [get_latest_log_file] returns one of these names,
    none of them is greater than it in the order of strings, and nothing is
    logged or changed. *)
Theorem get_latest_log_file_greatest log_dir w names :
  listdir (w_fs w) log_dir = Some names ->
  filter (fun f => PyStr.startswith f "nginx-access-ui.log") names <> [] ->
  exists m,
    get_latest_log_file log_dir w = (Return (Some m), w) /\
    In m names /\
    PyStr.startswith m "nginx-access-ui.log" = true /\
    forall f, In f names -> PyStr.startswith f "nginx-access-ui.log" = true ->
              String.leb f m = true.
Proof.
  intros Hdir Hne.
  destruct (get_latest_log_file_run log_dir w names Hdir Hne)
    as (m & Hrun & Hin & Hall).
  exists m. apply filter_In in Hin as [Hin Hp].
  repeat split; auto.
  intros f Hf Hpf. rewrite Forall_forall in Hall. apply Hall.
  apply filter_In. now split.
Qed.

(** X1 at a directory with two days of logs. *)
Lemma get_latest_log_file_greatest_witness :
  listdir (w_fs (start two_days_fs)) "./"
  = Some ["nginx-access-ui.log-20170629.gz"; "notes.txt";
          "nginx-access-ui.log-20170630"; "nginx-access-ui.log-20170630.gz"] /\
  filter (fun f => PyStr.startswith f "nginx-access-ui.log")
    ["nginx-access-ui.log-20170629.gz"; "notes.txt";
     "nginx-access-ui.log-20170630"; "nginx-access-ui.log-20170630.gz"] <> [] /\
  exists m,
    get_latest_log_file "./" (start two_days_fs) = (Return (Some m), start two_days_fs) /\
    In m ["nginx-access-ui.log-20170629.gz"; "notes.txt";
          "nginx-access-ui.log-20170630"; "nginx-access-ui.log-20170630.gz"] /\
    PyStr.startswith m "nginx-access-ui.log" = true /\
    forall f,
      In f ["nginx-access-ui.log-20170629.gz"; "notes.txt";
            "nginx-access-ui.log-20170630"; "nginx-access-ui.log-20170630.gz"] ->
      PyStr.startswith f "nginx-access-ui.log" = true ->
      String.leb f m = true.
Proof.
  assert (Hdir : listdir (w_fs (start two_days_fs)) "./"
                 = Some ["nginx-access-ui.log-20170629.gz"; "notes.txt";
                         "nginx-access-ui.log-20170630";
                         "nginx-access-ui.log-20170630.gz"]) by reflexivity.
  assert (Hne : filter (fun f => PyStr.startswith f "nginx-access-ui.log")
                  ["nginx-access-ui.log-20170629.gz"; "notes.txt";
                   "nginx-access-ui.log-20170630";
                   "nginx-access-ui.log-20170630.gz"] <> [])
    by (vm_compute; discriminate).
  split; [exact Hdir|]. split; [exact Hne|].
  exact (get_latest_log_file_greatest "./" (start two_days_fs) _ Hdir Hne).
Defined.

(** X2: a log that lies in the directory both plain and compressed, as
    [f] and [f.gz], is never selected in its plain form. *)
Theorem plain_log_not_selected_beside_gz log_dir w names f :
  listdir (w_fs w) log_dir = Some names ->
  PyStr.startswith f "nginx-access-ui.log" = true ->
  In (String.append f ".gz") names ->
  fst (get_latest_log_file log_dir w) <> Return (Some f).
Proof.
  intros Hdir Hp Hgz.
  assert (Hpgz : PyStr.startswith (String.append f ".gz") "nginx-access-ui.log" = true)
    by (apply prefix_append; exact Hp).
  assert (Hne : filter (fun f => PyStr.startswith f "nginx-access-ui.log") names <> []).
  { intros E.
    assert (Hin : In (String.append f ".gz")
                    (filter (fun f => PyStr.startswith f "nginx-access-ui.log") names))
      by (apply filter_In; now split).
    rewrite E in Hin. inversion Hin. }
  destruct (get_latest_log_file_run log_dir w names Hdir Hne)
    as (m & Hrun & _ & Hall).
  rewrite Hrun. cbn [fst]. intros [= ->].
  rewrite Forall_forall in Hall.
  assert (Hmax : String.leb (String.append f ".gz") f = true)
    by (apply Hall, filter_In; now split).
  assert (Hlt : String.ltb f (String.append f ".gz") = true)
    by (apply string_ltb_append; discriminate).
  apply string_ltb_not_leb in Hlt. congruence.
Qed.

(** X2 at the directory with two days of logs, for the plain log of the
    later day. *)
Lemma plain_log_not_selected_beside_gz_witness :
  listdir (w_fs (start two_days_fs)) "./"
  = Some ["nginx-access-ui.log-20170629.gz"; "notes.txt";
          "nginx-access-ui.log-20170630"; "nginx-access-ui.log-20170630.gz"] /\
  PyStr.startswith "nginx-access-ui.log-20170630" "nginx-access-ui.log" = true /\
  In (String.append "nginx-access-ui.log-20170630" ".gz")
     ["nginx-access-ui.log-20170629.gz"; "notes.txt";
      "nginx-access-ui.log-20170630"; "nginx-access-ui.log-20170630.gz"] /\
  fst (get_latest_log_file "./" (start two_days_fs))
  <> Return (Some "nginx-access-ui.log-20170630").
Proof.
  assert (Hdir : listdir (w_fs (start two_days_fs)) "./"
                 = Some ["nginx-access-ui.log-20170629.gz"; "notes.txt";
                         "nginx-access-ui.log-20170630";
                         "nginx-access-ui.log-20170630.gz"]) by reflexivity.
  assert (Hp : PyStr.startswith "nginx-access-ui.log-20170630" "nginx-access-ui.log"
               = true) by reflexivity.
  assert (Hgz : In (String.append "nginx-access-ui.log-20170630" ".gz")
                  ["nginx-access-ui.log-20170629.gz"; "notes.txt";
                   "nginx-access-ui.log-20170630";
                   "nginx-access-ui.log-20170630.gz"])
    by (right; right; right; left; reflexivity).
  split; [exact Hdir|]. split; [exact Hp|]. split; [exact Hgz|].
  exact (plain_log_not_selected_beside_gz "./" (start two_days_fs) _
           "nginx-access-ui.log-20170630" Hdir Hp Hgz).
Defined.

(** ** The configuration file *)

(** X3: a configuration file that is missing or is not valid JSON ends the
    run at once: [main] logs the one error of [parse_config] and ends with
    [FileNotFoundError] or [JSONDecodeError]; the configuration stays as it
    was and no report is written. *)
Theorem main_config_file_fatal p w :
  p <> "" ->
  (json_file (w_fs w) p = None ->
   main (Some p) w
   = (Raise FileNotFoundError,
      with_log (w_log w ++ [ERROR "Config file not found."]) w)) /\
  (json_file (w_fs w) p = Some None ->
   main (Some p) w
   = (Raise JSONDecodeError,
      with_log (w_log w ++ [ERROR "Invalid config file format."]) w)).
Proof.
  intros Hp. apply String.eqb_neq in Hp.
  split; intros Hj; unfold main, St.bind at 1, main_config; rewrite Hp;
    unfold parse_config, St.bind, St.gets, logging_error, St.modify, St.throw;
    rewrite Hj; reflexivity.
Qed.

(** X3 for the file name [conf.json] in a directory without it. *)
Lemma main_config_file_fatal_witness :
  "conf.json" <> "" /\
  (json_file (w_fs (start no_log_fs)) "conf.json" = None ->
   main (Some "conf.json") (start no_log_fs)
   = (Raise FileNotFoundError,
      with_log (w_log (start no_log_fs) ++ [ERROR "Config file not found."])
        (start no_log_fs))) /\
  (json_file (w_fs (start no_log_fs)) "conf.json" = Some None ->
   main (Some "conf.json") (start no_log_fs)
   = (Raise JSONDecodeError,
      with_log (w_log (start no_log_fs) ++ [ERROR "Invalid config file format."])
        (start no_log_fs))).
Proof.
  assert (Hp : "conf.json" <> "") by discriminate.
  split; [exact Hp|].
  exact (main_config_file_fatal "conf.json" (start no_log_fs) Hp).
Defined.

(** ** Splitting into fields and lines *)

Lemma split_space_no_space s :
  Forall (fun f => ~ In " "%char (list_ascii_of_string f)) (PyStr.split_space s).
Proof.
  induction s as [|c s IH]; simpl.
  - repeat constructor. intros [].
  - destruct (Ascii.eqb c " ") eqn:E.
    + constructor; [intros []|exact IH].
    + destruct (PyStr.split_space s) as [|w ws]; simpl.
      * repeat constructor. intros [H|[]]. subst. now rewrite Ascii.eqb_refl in E.
      * inversion IH as [|? ? Hw Hws]; subst. constructor; [|exact Hws].
        simpl. intros [H|H]; [|now apply Hw].
        subst. now rewrite Ascii.eqb_refl in E.
Qed.

Lemma concat_cons sep x l :
  l <> [] ->
  String.concat sep (x :: l)
  = String.append x (String.append sep (String.concat sep l)).
Proof. destruct l; [congruence|reflexivity]. Qed.

(** X4: [split(' ')] loses nothing: joining the fields with single spaces
    gives the line back; no field contains a space, and there is one field
    more than there are spaces in the line. *)
Theorem split_space_join s :
  String.concat " " (PyStr.split_space s) = s /\
  Forall (fun f => ~ In " "%char (list_ascii_of_string f)) (PyStr.split_space s) /\
  List.length (PyStr.split_space s)
  = S (count_occ ascii_dec (list_ascii_of_string s) " "%char).
Proof.
  split; [|split; [apply split_space_no_space|]].
  - induction s as [|c s IH]; [reflexivity|]. cbn [PyStr.split_space].
    pose proof (split_space_nonempty s) as Hne.
    destruct (Ascii.eqb c " ") eqn:E.
    + apply Ascii.eqb_eq in E. subst c.
      rewrite (concat_cons _ _ _ Hne), IH. reflexivity.
    + destruct (PyStr.split_space s) as [|w ws]; [congruence|].
      destruct ws as [|w' ws].
      * cbn [String.concat] in *. now rewrite IH.
      * rewrite concat_cons by discriminate.
        rewrite concat_cons in IH by discriminate.
        rewrite <- IH. reflexivity.
  - induction s as [|c s IH]; [reflexivity|]. cbn [PyStr.split_space].
    pose proof (split_space_nonempty s) as Hne.
    cbn [list_ascii_of_string count_occ].
    destruct (Ascii.eqb c " ") eqn:E.
    + apply Ascii.eqb_eq in E. subst c.
      destruct (ascii_dec " " " "); [|congruence]. cbn [List.length]. now rewrite IH.
    + apply Ascii.eqb_neq in E.
      destruct (ascii_dec c " "); [congruence|].
      destruct (PyStr.split_space s) as [|w ws]; [congruence|]. exact IH.
Qed.

Lemma binary_lines_nil s : PyStr.binary_lines s = [] -> s = "".
Proof.
  destruct s as [|c s]; [reflexivity|]. simpl.
  destruct (Ascii.eqb c "010"); [discriminate|].
  destruct (PyStr.binary_lines s); discriminate.
Qed.

(** X5: iterating a binary file loses nothing: the lines, put one after
    the other, are the content; no line is empty, a newline occurs in a
    line only as its last character, and every line but the last one ends
    with a newline. *)
Theorem binary_lines_partition s :
  String.concat "" (PyStr.binary_lines s) = s /\
  Forall (fun l => l <> "" /\
                   ~ In "010"%char (removelast (list_ascii_of_string l)))
         (PyStr.binary_lines s) /\
  Forall (fun l => last (list_ascii_of_string l) " "%char = "010"%char)
         (removelast (PyStr.binary_lines s)).
Proof.
  induction s as [|c s IH]; [repeat split; constructor|].
  destruct IH as (IH1 & IH2 & IH3). cbn [PyStr.binary_lines].
  destruct (Ascii.eqb c "010") eqn:E.
  - apply Ascii.eqb_eq in E. subst c.
    destruct (PyStr.binary_lines s) as [|l ls] eqn:L.
    + apply binary_lines_nil in L. subst s.
      repeat split; repeat constructor; try discriminate. intros [].
    + repeat split.
      * rewrite concat_cons by discriminate. now rewrite IH1.
      * constructor; [|exact IH2]. split; [discriminate|intros []].
      * cbn [removelast]. constructor; [reflexivity|exact IH3].
  - apply Ascii.eqb_neq in E.
    destruct (PyStr.binary_lines s) as [|l ls] eqn:L.
    + apply binary_lines_nil in L. subst s.
      repeat split; repeat constructor; try discriminate. intros [].
    + pose proof IH2 as IH2'. apply Forall_cons_iff in IH2' as [[Hl Hnl] Hls].
      assert (Hchars : list_ascii_of_string l <> [])
        by (destruct l; [congruence|discriminate]).
      repeat split.
      * destruct ls as [|l' ls].
        -- cbn [String.concat] in *. now rewrite IH1.
        -- rewrite concat_cons by discriminate.
           rewrite concat_cons in IH1 by discriminate.
           rewrite <- IH1. reflexivity.
      * constructor; [|exact Hls]. split; [discriminate|].
        cbn [list_ascii_of_string].
        assert (R : removelast (c :: list_ascii_of_string l)
                    = c :: removelast (list_ascii_of_string l))
          by (destruct (list_ascii_of_string l); [congruence|reflexivity]).
        rewrite R. intros [H|H]; [congruence|now apply Hnl].
      * destruct ls as [|l' ls]; [constructor|].
        cbn [removelast] in *. apply Forall_cons_iff in IH3 as [Hlast Hrest].
        constructor; [|exact Hrest].
        cbn [list_ascii_of_string].
        destruct (list_ascii_of_string l) as [|a chars]; [congruence|exact Hlast].
Qed.

(** ** [float] and whitespace *)

Lemma list_ascii_of_string_append s t :
  list_ascii_of_string (String.append s t)
  = list_ascii_of_string s ++ list_ascii_of_string t.
Proof. induction s as [|c s IH]; simpl; [reflexivity|now rewrite IH]. Qed.

Lemma lstrip_snoc_space l c :
  PyFloat.is_space c = true ->
  PyFloat.lstrip (l ++ [c])
  = match PyFloat.lstrip l with [] => [] | _ => PyFloat.lstrip l ++ [c] end.
Proof.
  intros Hc. induction l as [|a l IH]; cbn [app PyFloat.lstrip].
  - now rewrite Hc.
  - destruct (PyFloat.is_space a); [exact IH|reflexivity].
Qed.

Lemma strip_snoc_space l c :
  PyFloat.is_space c = true -> PyFloat.strip (l ++ [c]) = PyFloat.strip l.
Proof.
  intros Hc. unfold PyFloat.strip. rewrite (lstrip_snoc_space l c Hc).
  destruct (PyFloat.lstrip l) as [|a l'] eqn:E; [reflexivity|].
  rewrite rev_app_distr. cbn [rev app PyFloat.lstrip]. now rewrite Hc.
Qed.

Lemma strip_cons_space l c :
  PyFloat.is_space c = true -> PyFloat.strip (c :: l) = PyFloat.strip l.
Proof. intros Hc. unfold PyFloat.strip. cbn [PyFloat.lstrip]. now rewrite Hc. Qed.

Lemma float_of_strip s t :
  PyFloat.strip (list_ascii_of_string s) = PyFloat.strip (list_ascii_of_string t) ->
  PyFloat.float s = PyFloat.float t.
Proof. intros H. unfold PyFloat.float. now rewrite H. Qed.

(** X6: [float] does not see a whitespace character before or after its
    argument; in particular the newline that ends a log line, and with it
    the last field, does not change the request time. *)
Theorem float_ignores_outer_whitespace s c :
  PyFloat.is_space c = true ->
  PyFloat.float (String.append s (String c "")) = PyFloat.float s /\
  PyFloat.float (String c s) = PyFloat.float s.
Proof.
  intros Hc. split; apply float_of_strip.
  - rewrite list_ascii_of_string_append. now apply strip_snoc_space.
  - now apply strip_cons_space.
Qed.

(** X6 for the newline. *)
Lemma float_ignores_outer_whitespace_witness :
  PyFloat.is_space "010" = true /\
  PyFloat.float (String.append "0.390" (String "010" "")) = PyFloat.float "0.390" /\
  PyFloat.float (String "010" "0.390") = PyFloat.float "0.390".
Proof.
  assert (Hc : PyFloat.is_space "010" = true) by reflexivity.
  split; [exact Hc|].
  exact (float_ignores_outer_whitespace "0.390" "010" Hc).
Defined.

(** ** What [process_logs] accumulates *)

Lemma fold_accepted logs a :
  statistics (fold_left aggregate_line logs a)
  = statistics (fold_left record_time (accepted logs) a) /\
  total_time (fold_left aggregate_line logs a)
  = total_time (fold_left record_time (accepted logs) a).
Proof.
  revert a. induction logs as [|log logs IH]; intros a; [split; reflexivity|].
  unfold accepted. cbn [flat_map fold_left]. fold (accepted logs).
  unfold aggregate_line at 2 4.
  destruct (parse_log_line log) as [parsed|e].
  - cbn [app fold_left]. apply IH.
  - cbn [app]. rewrite fold_count_error. cbn [statistics total_time count_error].
    apply IH.
Qed.

Lemma accepted_length logs :
  (List.length (accepted logs) + parse_errors logs = List.length logs)%nat.
Proof.
  unfold accepted, parse_errors.
  induction logs as [|log logs IH]; [reflexivity|]. cbn [flat_map filter].
  destruct (parse_log_line log); cbn [raises app List.length]; lia.
Qed.

(** What [process_logs] returns, when it returns. *)
Lemma process_logs_returns logs w stats total :
  fst (process_logs logs w) = Return (stats, total) ->
  let a := fold_left record_time (accepted logs)
             {| statistics := []; total_time := 0; errors_count := 0 |} in
  stats = statistics a /\ total = total_time a.
Proof.
  rewrite process_logs_run.
  destruct (Py.int_truediv _ _) as [rate|]; [|discriminate].
  destruct (PrimFloat.ltb _ rate); [discriminate|].
  cbn [fst]. intros [= <- <-].
  destruct (fold_accepted logs
              {| statistics := []; total_time := 0; errors_count := 0 |}) as [H1 H2].
  now rewrite H1, H2.
Qed.

Lemma times_of_dict_append d k v u :
  times_of (dict_append d k v) u
  = times_of d u ++ (if String.eqb k u then [v] else []).
Proof.
  induction d as [|[k' vs] d IH]; cbn [dict_append times_of].
  - now destruct (String.eqb k u).
  - destruct (String.eqb k' k) eqn:Ek; cbn [times_of].
    + apply String.eqb_eq in Ek. subst k'.
      destruct (String.eqb k u); [reflexivity|now rewrite app_nil_r].
    + destruct (String.eqb k' u) eqn:Eu; [|exact IH].
      apply String.eqb_eq in Eu. subst k'.
      rewrite String.eqb_sym, Ek. now rewrite app_nil_r.
Qed.

Lemma times_of_fold ps a u :
  times_of (statistics (fold_left record_time ps a)) u
  = times_of (statistics a) u
    ++ map pl_request_time (filter (fun p => String.eqb (pl_url p) u) ps).
Proof.
  revert a. induction ps as [|p ps IH]; intros a; cbn [fold_left filter map].
  - now rewrite app_nil_r.
  - rewrite IH. cbn [record_time statistics]. rewrite times_of_dict_append.
    rewrite <- app_assoc. f_equal. now destruct (String.eqb (pl_url p) u).
Qed.

Lemma total_time_fold ps a :
  total_time (fold_left record_time ps a)
  = fold_left PrimFloat.add (map pl_request_time ps) (total_time a).
Proof.
  revert a. induction ps as [|p ps IH]; intros a; [reflexivity|].
  cbn [fold_left map]. now rewrite IH.
Qed.

(** X7: the aggregation that [process_logs] returns holds, for every URL,
    the request times of the accepted lines with that URL, in the order of
    the log; [total_time] is the sum, in the order of the log, of the
    request times of all accepted lines. *)
Theorem process_logs_collects_times logs w stats total :
  fst (process_logs logs w) = Return (stats, total) ->
  (forall u,
     times_of stats u
     = map pl_request_time
         (filter (fun p => String.eqb (pl_url p) u) (accepted logs))) /\
  total = Py.sum (map pl_request_time (accepted logs)).
Proof.
  intros H. apply process_logs_returns in H as [-> ->]. split.
  - intros u. now rewrite times_of_fold.
  - now rewrite total_time_fold.
Qed.

(** X7 for a log of one well-formed line. *)
Lemma process_logs_collects_times_witness :
  fst (process_logs [Str sample_line] (start gzip_log_fs))
  = Return ([("/api/v2/banner", [0.390%float])], 0.390%float) /\
  (forall u,
     times_of [("/api/v2/banner", [0.390%float])] u
     = map pl_request_time
         (filter (fun p => String.eqb (pl_url p) u) (accepted [Str sample_line]))) /\
  0.390%float = Py.sum (map pl_request_time (accepted [Str sample_line])).
Proof.
  assert (H : fst (process_logs [Str sample_line] (start gzip_log_fs))
              = Return ([("/api/v2/banner", [0.390%float])], 0.390%float))
    by (vm_compute; reflexivity).
  split; [exact H|].
  exact (process_logs_collects_times [Str sample_line] (start gzip_log_fs) _ _ H).
Defined.

Lemma requests_dict_append d k v : requests (dict_append d k v) = S (requests d).
Proof.
  unfold requests. induction d as [|[k' vs] d IH]; cbn [dict_append map list_sum].
  - reflexivity.
  - destruct (String.eqb k' k); cbn [map list_sum snd].
    + rewrite length_app. simpl. lia.
    + simpl in *. rewrite IH. lia.
Qed.

Lemma requests_fold ps a :
  requests (statistics (fold_left record_time ps a))
  = (requests (statistics a) + List.length ps)%nat.
Proof.
  revert a. induction ps as [|p ps IH]; intros a; cbn [fold_left List.length].
  - lia.
  - rewrite IH. cbn [record_time statistics]. rewrite requests_dict_append. lia.
Qed.

(** X8: no line is lost and none is counted twice: the request times in
    the returned dict and the rejected lines together are as many as the
    lines of the log. *)
Theorem process_logs_accounts_for_every_line logs w stats total :
  fst (process_logs logs w) = Return (stats, total) ->
  (requests stats + parse_errors logs = List.length logs)%nat.
Proof.
  intros H. apply process_logs_returns in H as [-> _].
  rewrite requests_fold. cbn [statistics]. change (requests []) with 0%nat.
  apply accepted_length.
Qed.

(** X8 for a log of ten lines of which one is rejected. *)
Lemma process_logs_accounts_for_every_line_witness :
  fst (process_logs (Str "garbage" :: repeat (Str sample_line) 9) (start gzip_log_fs))
  = Return ([("/api/v2/banner", repeat 0.390%float 9)],
            Py.sum (repeat 0.390%float 9)) /\
  (requests [("/api/v2/banner", repeat 0.390%float 9)]
   + parse_errors (Str "garbage" :: repeat (Str sample_line) 9)
   = List.length (Str "garbage" :: repeat (Str sample_line) 9))%nat.
Proof.
  assert (H : fst (process_logs (Str "garbage" :: repeat (Str sample_line) 9)
                     (start gzip_log_fs))
              = Return ([("/api/v2/banner", repeat 0.390%float 9)],
                        Py.sum (repeat 0.390%float 9)))
    by (vm_compute; reflexivity).
  split; [exact H|].
  exact (process_logs_accounts_for_every_line _ (start gzip_log_fs) _ _ H).
Defined.

Lemma dict_append_keys_in d k v :
  map fst (dict_append d k v)
  = if in_dec string_dec k (map fst d) then map fst d else map fst d ++ [k].
Proof.
  rewrite dict_append_keys.
  destruct (in_dec string_dec k (map fst d)) as [Hin|Hout].
  - assert (E : existsb (String.eqb k) (map fst d) = true).
    { apply existsb_exists. exists k. split; [exact Hin|apply String.eqb_refl]. }
    now rewrite E.
  - destruct (existsb (String.eqb k) (map fst d)) eqn:E; [|reflexivity].
    apply existsb_exists in E as (x & Hx & Hk). apply String.eqb_eq in Hk.
    subst x. contradiction.
Qed.

Lemma first_seen_snoc urls k :
  first_seen (urls ++ [k])
  = if in_dec string_dec k (first_seen urls) then first_seen urls
    else first_seen urls ++ [k].
Proof.
  unfold first_seen. rewrite rev_app_distr. cbn [rev app nodup].
  destruct (in_dec string_dec k (rev urls)) as [Hin|Hout];
    destruct (in_dec string_dec k (rev (nodup string_dec (rev urls)))) as [Hin'|Hout'];
    try reflexivity.
  - exfalso. apply Hout'. rewrite <- in_rev. now apply nodup_In.
  - exfalso. apply Hout. rewrite <- in_rev in Hin'. now apply nodup_In in Hin'.
Qed.

Lemma keys_fold ps :
  map fst (statistics (fold_left record_time ps
             {| statistics := []; total_time := 0; errors_count := 0 |}))
  = first_seen (map pl_url ps).
Proof.
  induction ps as [|p ps IH] using rev_ind; [reflexivity|].
  rewrite fold_left_app, map_app. cbn [fold_left map record_time statistics].
  rewrite dict_append_keys_in, IH. symmetry. apply first_seen_snoc.
Qed.

(** X9: the URLs of the returned dict are the URLs of the accepted lines,
    each once, in the order in which they first occur in the log (the order
    in which [generate_report] later meets them). *)
Theorem process_logs_keys_first_seen logs w stats total :
  fst (process_logs logs w) = Return (stats, total) ->
  map fst stats = first_seen (map pl_url (accepted logs)).
Proof.
  intros H. apply process_logs_returns in H as [-> _]. apply keys_fold.
Qed.

(** X9 for the three lines [/b], [/a], [/b]. *)
Lemma process_logs_keys_first_seen_witness :
  let line u :=
    Str (String.append "1.2.3.4 -  - [29/Jun/2017:03:50:22 +0300] GET "
           (String.append u " HTTP/1.1 200 927 0.5")) in
  fst (process_logs [line "/b"; line "/a"; line "/b"] (start gzip_log_fs))
  = Return ([("/b", [0.5; 0.5]); ("/a", [0.5])]%float, 1.5%float) /\
  map fst [("/b", [0.5; 0.5]); ("/a", [0.5])]%float
  = first_seen (map pl_url (accepted [line "/b"; line "/a"; line "/b"])).
Proof.
  intros line.
  assert (H : fst (process_logs [line "/b"; line "/a"; line "/b"] (start gzip_log_fs))
              = Return ([("/b", [0.5; 0.5]); ("/a", [0.5])]%float, 1.5%float))
    by (vm_compute; reflexivity).
  split; [exact H|].
  exact (process_logs_keys_first_seen _ (start gzip_log_fs) _ _ H).
Defined.

Lemma leb_not_ltb x y : PrimFloat.leb x y = true -> PrimFloat.ltb y x = false.
Proof.
  rewrite FloatOrder.leb_key, FloatOrder.ltb_key.
  destruct (FloatKey.key (Prim2SF x)) as [a|], (FloatKey.key (Prim2SF y)) as [b|];
    try discriminate; try reflexivity.
  rewrite (FloatOrder.lex_antisym a b). now destruct (FloatKey.lex a b).
Qed.

(** X10: a non-empty log without a rejected line is never refused, whatever
    non-negative threshold is configured: the rate is 0/n, and
    [process_logs] returns the aggregation. *)
Theorem process_logs_without_errors_returns logs w :
  logs <> [] ->
  parse_errors logs = 0%nat ->
  PrimFloat.leb 0 (ERRORS_THRESHOLD (w_config w)) = true ->
  exists stats total,
    process_logs logs w = (Return (stats, total), w) /\
    requests stats = List.length logs.
Proof.
  intros Hne H0 Hthr.
  assert (Hlog : parse_error_log logs = []).
  { unfold parse_errors in H0. unfold parse_error_log.
    induction logs as [|l logs IH]; [reflexivity|]. cbn [filter flat_map] in *.
    destruct (parse_log_line l); cbn [raises] in *; [|discriminate].
    destruct logs; [reflexivity|]. apply IH; [discriminate|exact H0]. }
  pose proof (process_logs_run logs w) as Hrun. cbn zeta in Hrun.
  rewrite H0, Hlog, app_nil_r, with_log_same in Hrun.
  destruct logs as [|l logs]; [congruence|].
  cbn [List.length Z.of_nat Py.int_truediv Z.ltb Z.compare Z.abs
       Py.round_quotient] in Hrun.
  change (SF2Prim (S754_zero false)) with 0%float in Hrun.
  rewrite (leb_not_ltb _ _ Hthr) in Hrun.
  do 2 eexists. split; [exact Hrun|].
  destruct (fold_accepted (l :: logs)
              {| statistics := []; total_time := 0; errors_count := 0 |}) as [-> _].
  rewrite requests_fold. cbn [statistics]. change (requests []) with 0%nat.
  pose proof (accepted_length (l :: logs)) as L. rewrite H0 in L.
  cbn [Nat.add]. lia.
Qed.

(** X10 for a log of one well-formed line under the default threshold. *)
Lemma process_logs_without_errors_returns_witness :
  [Str sample_line] <> [] /\
  parse_errors [Str sample_line] = 0%nat /\
  PrimFloat.leb 0 (ERRORS_THRESHOLD (w_config (start gzip_log_fs))) = true /\
  exists stats total,
    process_logs [Str sample_line] (start gzip_log_fs)
    = (Return (stats, total), start gzip_log_fs) /\
    requests stats = List.length [Str sample_line].
Proof.
  assert (Hne : [Str sample_line] <> []) by discriminate.
  assert (H0 : parse_errors [Str sample_line] = 0%nat) by (vm_compute; reflexivity).
  assert (Hthr : PrimFloat.leb 0 (ERRORS_THRESHOLD (w_config (start gzip_log_fs)))
                 = true) by reflexivity.
  repeat (split; [assumption|]).
  exact (process_logs_without_errors_returns _ (start gzip_log_fs) Hne H0 Hthr).
Defined.


(** ** Reading and aggregating a plain log *)

Lemma accepted_bytes lines : accepted (map Bytes lines) = [].
Proof. induction lines as [|l lines IH]; [reflexivity|exact IH]. Qed.

(** X12: a log whose name does not end in [.gz] never contributes a
    request: whenever [process_logs] returns on the lines that
    [read_log_file] hands on, the dict is empty and [total_time] is 0, all
    lines having been counted as errors. *)
Theorem plain_log_gives_no_statistics log_file w logs stats total :
  PyStr.endswith log_file ".gz" = false ->
  fst (read_log_file log_file w) = Return logs ->
  fst (process_logs logs w) = Return (stats, total) ->
  stats = [] /\ total = 0%float /\ parse_errors logs = List.length logs.
Proof.
  intros Hgz Hread Hproc.
  unfold read_log_file, St.bind, St.gets in Hread.
  destruct (file_bytes (w_fs w) log_file) as [content|]; [|discriminate].
  rewrite Hgz in Hread. cbn in Hread. injection Hread as <-.
  apply process_logs_returns in Hproc as [-> ->].
  rewrite accepted_bytes, parse_errors_bytes, length_map. auto.
Qed.

(** X12 for the plain log of one line, under a threshold of 1. *)
Lemma plain_log_gives_no_statistics_witness :
  PyStr.endswith "./nginx-access-ui.log-20170630" ".gz" = false /\
  fst (read_log_file "./nginx-access-ui.log-20170630" (tolerant plain_log_fs))
  = Return [Bytes sample_line] /\
  fst (process_logs [Bytes sample_line] (tolerant plain_log_fs))
  = Return ([], 0%float) /\
  @nil (string * list float) = [] /\ 0%float = 0%float /\
  parse_errors [Bytes sample_line] = List.length [Bytes sample_line].
Proof.
  assert (Hgz : PyStr.endswith "./nginx-access-ui.log-20170630" ".gz" = false)
    by reflexivity.
  assert (Hread : fst (read_log_file "./nginx-access-ui.log-20170630"
                         (tolerant plain_log_fs))
                  = Return [Bytes sample_line]) by reflexivity.
  assert (Hproc : fst (process_logs [Bytes sample_line] (tolerant plain_log_fs))
                  = Return ([], 0%float)) by (vm_compute; reflexivity).
  repeat (split; [assumption|]).
  exact (plain_log_gives_no_statistics _ (tolerant plain_log_fs) _ _ _
           Hgz Hread Hproc).
Defined.

(** ** More about [generate_report] *)

(** X13: with an empty dict, or with a [report_size] that is not positive,
    the report is the empty list, whatever [total_time] is: no division is
    reached. *)
Theorem generate_report_nothing_to_report st report_size :
  s_statistics st = [] \/ (report_size <= 0)%Z ->
  generate_report report_size st = (Return [], st).
Proof.
  intros H. rewrite generate_report_run.
  assert (E : Py.nlargest report_size by_time_sum (s_statistics st) = []).
  { apply length_zero_iff_nil. rewrite nlargest_length.
    destruct H as [-> | Hn]; [apply Nat.min_0_r|].
    replace (Z.to_nat report_size) with 0%nat by lia. reflexivity. }
  now rewrite E.
Qed.

(** X13 for an empty dict and a zero [total_time]. *)
Lemma generate_report_nothing_to_report_witness :
  (s_statistics {| s_statistics := []; s_total_time := 0 |} = [] \/ (1000 <= 0)%Z) /\
  generate_report 1000 {| s_statistics := []; s_total_time := 0 |}
  = (Return [], {| s_statistics := []; s_total_time := 0 |}).
Proof.
  assert (H : s_statistics {| s_statistics := []; s_total_time := 0 |} = []
              \/ (1000 <= 0)%Z) by (left; reflexivity).
  split; [exact H|].
  exact (generate_report_nothing_to_report _ 1000 H).
Defined.

(** Every field of the row of an item, when nothing divides by zero. *)
Lemma url_stats_of_fields u times st :
  s_statistics st <> [] -> times <> [] ->
  PrimFloat.eqb (s_total_time st) 0 = false ->
  exists r,
    fst (url_stats_of (u, times) st) = Return r /\
    url r = u /\
    count r = List.length times /\
    Py.int_truediv (Z.of_nat (List.length times))
                   (Z.of_nat (List.length (s_statistics st)))
    = Return (count_perc r) /\
    time_sum r = Py.sum times /\
    Py.truediv_int (Py.sum times) (Z.of_nat (List.length times))
    = Return (time_avg r) /\
    Py.max times = Return (time_max r) /\
    time_med r = nth (List.length times / 2) (Py.sorted times) 0%float.
Proof.
  intros Hs Ht H0. unfold url_stats_of.
  unfold St.bind, St.gets, St.lift, St.ret.
  rewrite (index_sorted_middle times Ht).
  assert (Hcp : exists cp, Py.int_truediv (Z.of_nat (List.length times))
                  (Z.of_nat (List.length (s_statistics st))) = Return cp).
  { destruct (s_statistics st); [congruence|]. simpl. eauto. }
  destruct Hcp as [cp Hcp]. rewrite Hcp.
  unfold Py.truediv. rewrite H0.
  assert (Hta : exists ta, Py.truediv_int (Py.sum times)
                  (Z.of_nat (List.length times)) = Return ta).
  { destruct times; [congruence|]. unfold Py.truediv_int. simpl. eauto. }
  destruct Hta as [ta Hta]. rewrite Hta.
  assert (Hmax : exists m, Py.max times = Return m).
  { destruct times; [congruence|]. simpl. eauto. }
  destruct Hmax as [m Hmax]. rewrite Hmax.
  cbn [fst]. eexists. split; [reflexivity|]. cbn. repeat split; auto.
Qed.

Lemma generate_report_fields st report_size :
  PrimFloat.eqb (s_total_time st) 0 = false ->
  times_nonempty (s_statistics st) ->
  exists rows,
    fst (generate_report report_size st) = Return rows /\
    Forall2
      (fun it r =>
         snd it <> [] /\
         url r = fst it /\
         count r = List.length (snd it) /\
         Py.int_truediv (Z.of_nat (List.length (snd it)))
                        (Z.of_nat (List.length (s_statistics st)))
         = Return (count_perc r) /\
         time_sum r = Py.sum (snd it) /\
         Py.truediv_int (Py.sum (snd it)) (Z.of_nat (List.length (snd it)))
         = Return (time_avg r) /\
         Py.max (snd it) = Return (time_max r) /\
         time_med r = nth (List.length (snd it) / 2) (Py.sorted (snd it)) 0%float)
      (Py.nlargest report_size by_time_sum (s_statistics st)) rows.
Proof.
  intros H0 Hne. rewrite generate_report_run. cbn [fst].
  apply traverse_ok. apply Forall_forall. intros [u times] Hin.
  apply nlargest_incl in Hin.
  assert (Hs : s_statistics st <> []) by (intros E; rewrite E in Hin; inversion Hin).
  assert (Ht : times <> []).
  { unfold times_nonempty in Hne. rewrite Forall_forall in Hne.
    exact (Hne _ Hin). }
  destruct (url_stats_of_fields u times st Hs Ht H0) as (r & Hr & Hf).
  exists r. split; [exact Hr|]. cbn [fst snd]. split; [exact Ht|exact Hf].
Qed.

(** [max] on a non-empty list of floats: one of them and, when they are
    numbers, not below any. *)
Lemma float_max_spec x xs :
  let m := fold_left (fun m y => if PrimFloat.ltb m y then y else m) xs x in
  In m (x :: xs) /\
  (Forall FloatKey.is_number (x :: xs) ->
   Forall (fun y => PrimFloat.leb y m = true) (x :: xs)).
Proof.
  cbn zeta. split.
  - revert x. induction xs as [|y xs IH]; intros x; cbn [fold_left].
    + now left.
    + destruct (PrimFloat.ltb x y).
      * right. apply IH.
      * destruct (IH x) as [H|H]; [now left|right; now right].
  - intros Hnum.
    assert (G : forall cur,
               FloatKey.is_number cur -> Forall FloatKey.is_number xs ->
               let m := fold_left (fun m y => if PrimFloat.ltb m y then y else m) xs cur in
               PrimFloat.leb cur m = true /\
               Forall (fun y => PrimFloat.leb y m = true) xs).
    { clear. induction xs as [|y xs IH]; intros cur Hc Hxs; cbn [fold_left].
      - split; [now apply FloatOrder.leb_refl|constructor].
      - apply Forall_cons_iff in Hxs as [Hy Hxs].
        destruct (PrimFloat.ltb cur y) eqn:E.
        + destruct (IH y Hy Hxs) as [H1 H2]. split; [|now constructor].
          apply FloatOrder.leb_trans with y; [now apply FloatOrder.ltb_leb|exact H1].
        + destruct (IH cur Hc Hxs) as [H1 H2]. split; [exact H1|].
          constructor; [|exact H2].
          apply FloatOrder.leb_trans with cur; [|exact H1].
          now apply FloatOrder.not_ltb_leb. }
    apply Forall_cons_iff in Hnum as [Hx Hxs].
    destruct (G x Hx Hxs) as [H1 H2]. now constructor.
Qed.

(** X14: the reported [time_max] of a URL is one of its request times,
    and, when these are numbers, none of them is greater. *)
Theorem time_max_is_greatest st report_size :
  PrimFloat.eqb (s_total_time st) 0 = false ->
  times_nonempty (s_statistics st) ->
  exists rows,
    fst (generate_report report_size st) = Return rows /\
    Forall2
      (fun it r =>
         url r = fst it /\
         In (time_max r) (snd it) /\
         (Forall FloatKey.is_number (snd it) ->
          Forall (fun t => FloatKey.ge (time_max r) t) (snd it)))
      (Py.nlargest report_size by_time_sum (s_statistics st)) rows.
Proof.
  intros H0 Hne.
  destruct (generate_report_fields st report_size H0 Hne) as (rows & Hr & HF).
  exists rows. split; [exact Hr|].
  eapply Forall2_impl; [|exact HF].
  intros [u times] r (Ht & Hu & _ & _ & _ & _ & Hmax & _). cbn [fst snd] in *.
  destruct times as [|x xs]; [congruence|].
  cbn [Py.max] in Hmax. injection Hmax as Hmax.
  destruct (float_max_spec x xs) as [Hin Hall]. cbn zeta in Hin, Hall.
  rewrite Hmax in Hin, Hall. auto.
Qed.

(** X14 at [two_urls]. *)
Lemma time_max_is_greatest_witness :
  PrimFloat.eqb (s_total_time two_urls) 0 = false /\
  times_nonempty (s_statistics two_urls) /\
  exists rows,
    fst (generate_report 2 two_urls) = Return rows /\
    Forall2
      (fun it r =>
         url r = fst it /\
         In (time_max r) (snd it) /\
         (Forall FloatKey.is_number (snd it) ->
          Forall (fun t => FloatKey.ge (time_max r) t) (snd it)))
      (Py.nlargest 2 by_time_sum (s_statistics two_urls)) rows.
Proof.
  assert (H0 : PrimFloat.eqb (s_total_time two_urls) 0 = false) by reflexivity.
  assert (Hne : times_nonempty (s_statistics two_urls))
    by (repeat constructor; discriminate).
  split; [exact H0|]. split; [exact Hne|].
  exact (time_max_is_greatest two_urls 2 H0 Hne).
Defined.

(** X15: in every row [count] is the number of request times of the URL
    and at least 1, [time_avg] is [time_sum / count], and [count_perc] is
    [count] divided by the number of URLs in the dict (not by the number of
    requests). *)
Theorem row_counts_and_average st report_size :
  PrimFloat.eqb (s_total_time st) 0 = false ->
  times_nonempty (s_statistics st) ->
  exists rows,
    fst (generate_report report_size st) = Return rows /\
    Forall2
      (fun it r =>
         url r = fst it /\
         count r = List.length (snd it) /\
         (1 <= count r)%nat /\
         Py.truediv_int (time_sum r) (Z.of_nat (count r)) = Return (time_avg r) /\
         Py.int_truediv (Z.of_nat (count r))
                        (Z.of_nat (List.length (s_statistics st)))
         = Return (count_perc r))
      (Py.nlargest report_size by_time_sum (s_statistics st)) rows.
Proof.
  intros H0 Hne.
  destruct (generate_report_fields st report_size H0 Hne) as (rows & Hr & HF).
  exists rows. split; [exact Hr|].
  eapply Forall2_impl; [|exact HF].
  intros [u times] r (Ht & Hu & Hc & Hcp & Hs & Hta & _). cbn [fst snd] in *.
  rewrite Hc, Hs. repeat split; auto.
  destruct times; [congruence|]. simpl. lia.
Qed.

(** X15 at [two_urls]. *)
Lemma row_counts_and_average_witness :
  PrimFloat.eqb (s_total_time two_urls) 0 = false /\
  times_nonempty (s_statistics two_urls) /\
  exists rows,
    fst (generate_report 2 two_urls) = Return rows /\
    Forall2
      (fun it r =>
         url r = fst it /\
         count r = List.length (snd it) /\
         (1 <= count r)%nat /\
         Py.truediv_int (time_sum r) (Z.of_nat (count r)) = Return (time_avg r) /\
         Py.int_truediv (Z.of_nat (count r))
                        (Z.of_nat (List.length (s_statistics two_urls)))
         = Return (count_perc r))
      (Py.nlargest 2 by_time_sum (s_statistics two_urls)) rows.
Proof.
  assert (H0 : PrimFloat.eqb (s_total_time two_urls) 0 = false) by reflexivity.
  assert (Hne : times_nonempty (s_statistics two_urls))
    by (repeat constructor; discriminate).
  split; [exact H0|]. split; [exact Hne|].
  exact (row_counts_and_average two_urls 2 H0 Hne).
Defined.

Lemma StronglySorted_app_tail {A} (R : A -> A -> Prop) l1 l2 :
  StronglySorted R (l1 ++ l2) -> StronglySorted R l2.
Proof.
  induction l1 as [|x l1 IH]; cbn [app]; [auto|].
  intros H. apply IH. now inversion H.
Qed.

(** X16: the reported [time_med] splits the request times of its URL in
    two: when the times are numbers, [n // 2] of them are not above it and
    all the others are not below it. *)
Theorem time_med_splits_times st report_size :
  PrimFloat.eqb (s_total_time st) 0 = false ->
  times_nonempty (s_statistics st) ->
  exists rows,
    fst (generate_report report_size st) = Return rows /\
    Forall2
      (fun it r =>
         url r = fst it /\
         (Forall FloatKey.is_number (snd it) ->
          exists lo hi,
            Permutation (snd it) (lo ++ time_med r :: hi) /\
            List.length lo = (List.length (snd it) / 2)%nat /\
            Forall (fun t => PrimFloat.leb t (time_med r) = true) lo /\
            Forall (fun t => PrimFloat.leb (time_med r) t = true) hi))
      (Py.nlargest report_size by_time_sum (s_statistics st)) rows.
Proof.
  intros H0 Hne.
  destruct (generate_report_fields st report_size H0 Hne) as (rows & Hr & HF).
  exists rows. split; [exact Hr|].
  eapply Forall2_impl; [|exact HF].
  intros [u times] r (Ht & Hu & _ & _ & _ & _ & _ & Hmed). cbn [fst snd] in *.
  split; [exact Hu|]. intros Hnum.
  assert (L : (List.length times / 2 < List.length (Py.sorted times))%nat).
  { unfold Py.sorted. rewrite stable_sort_length.
    destruct times; [congruence|]. apply Nat.div_lt; simpl; lia. }
  destruct (nth_split (Py.sorted times) 0%float L) as (lo & hi & Hsplit & Hlo).
  rewrite <- Hmed in Hsplit.
  pose proof (sorted_ascending times Hnum) as Hs. rewrite Hsplit in Hs.
  exists lo, hi. repeat split.
  - rewrite <- Hsplit. symmetry. apply stable_sort_perm.
  - exact Hlo.
  - apply StronglySorted_app_inv in Hs as [_ Hs].
    eapply Forall_impl; [|exact Hs]. intros t Ht'.
    now apply Forall_cons_iff in Ht' as [Ht' _].
  - apply StronglySorted_app_tail in Hs. now inversion Hs.
Qed.

(** X16 at [two_urls]. *)
Lemma time_med_splits_times_witness :
  PrimFloat.eqb (s_total_time two_urls) 0 = false /\
  times_nonempty (s_statistics two_urls) /\
  exists rows,
    fst (generate_report 2 two_urls) = Return rows /\
    Forall2
      (fun it r =>
         url r = fst it /\
         (Forall FloatKey.is_number (snd it) ->
          exists lo hi,
            Permutation (snd it) (lo ++ time_med r :: hi) /\
            List.length lo = (List.length (snd it) / 2)%nat /\
            Forall (fun t => PrimFloat.leb t (time_med r) = true) lo /\
            Forall (fun t => PrimFloat.leb (time_med r) t = true) hi))
      (Py.nlargest 2 by_time_sum (s_statistics two_urls)) rows.
Proof.
  assert (H0 : PrimFloat.eqb (s_total_time two_urls) 0 = false) by reflexivity.
  assert (Hne : times_nonempty (s_statistics two_urls))
    by (repeat constructor; discriminate).
  split; [exact H0|]. split; [exact Hne|].
  exact (time_med_splits_times two_urls 2 H0 Hne).
Defined.

(** ** Ties *)

Lemma lex_eq a b : FloatKey.lex a b = Eq -> a = b.
Proof.
  destruct a as [[a1 a2] a3], b as [[b1 b2] b3]; simpl.
  destruct (Z.compare_spec a1 b1), (Z.compare_spec a2 b2), (Z.compare_spec a3 b3);
    try discriminate.
  intros _. congruence.
Qed.

Lemma eqb_eqb_not_ltb x y k :
  PrimFloat.eqb x k = true -> PrimFloat.eqb y k = true ->
  PrimFloat.ltb x y = false.
Proof.
  rewrite !FloatOrder.eqb_key, FloatOrder.ltb_key.
  destruct (FloatKey.key (Prim2SF x)) as [a|], (FloatKey.key (Prim2SF y)) as [b|],
           (FloatKey.key (Prim2SF k)) as [c|]; try discriminate.
  destruct (FloatKey.lex a c) eqn:Ea; try discriminate.
  destruct (FloatKey.lex b c) eqn:Eb; try discriminate.
  apply lex_eq in Ea, Eb. subst. now rewrite FloatOrder.lex_refl.
Qed.

Section StableFilter.
Context {A : Type} (before : A -> A -> bool) (p : A -> bool).
Hypothesis p_not_before : forall x y, p x = true -> p y = true -> before y x = false.

Lemma filter_insert x l :
  filter p (Py.insert before x l) = if p x then x :: filter p l else filter p l.
Proof.
  induction l as [|y l IH]; cbn [Py.insert filter].
  - now destruct (p x).
  - destruct (before y x) eqn:E; cbn [filter]; [|now destruct (p x)].
    rewrite IH. destruct (p x) eqn:Px, (p y) eqn:Py'; try reflexivity.
    rewrite (p_not_before x y Px Py') in E. discriminate.
Qed.

Lemma filter_stable_sort l : filter p (Py.stable_sort before l) = filter p l.
Proof.
  induction l as [|x l IH]; [reflexivity|].
  cbn [Py.stable_sort fold_right]. fold (Py.stable_sort before l).
  rewrite filter_insert. cbn [filter]. now rewrite IH.
Qed.
End StableFilter.

Lemma Forall2_filter_map {A B C} (Q : A -> B -> Prop) (p : A -> bool) (q : B -> bool)
      (f : A -> C) (g : B -> C) l l' :
  (forall a b, Q a b -> p a = q b /\ f a = g b) ->
  Forall2 Q l l' -> map f (filter p l) = map g (filter q l').
Proof.
  intros HQ. induction 1 as [|a b l l' Hab _ IH]; [reflexivity|].
  cbn [filter]. destruct (HQ a b Hab) as [Hp Hf]. rewrite <- Hp.
  destruct (p a); cbn [map]; now rewrite ?Hf, IH.
Qed.

(** X17: when the time sums are numbers, URLs with equal [time_sum] keep
    the order they have in the dict: for every value [k], the rows whose
    [time_sum] equals [k] are, in order, the first of the dict's URLs whose
    times sum to [k]. *)
Theorem report_keeps_dict_order_among_ties st report_size k :
  PrimFloat.eqb (s_total_time st) 0 = false ->
  times_nonempty (s_statistics st) ->
  Forall (fun it => FloatKey.is_number (by_time_sum it)) (s_statistics st) ->
  exists rows later,
    fst (generate_report report_size st) = Return rows /\
    map fst (filter (fun it => PrimFloat.eqb (by_time_sum it) k) (s_statistics st))
    = map url (filter (fun r => PrimFloat.eqb (time_sum r) k) rows) ++ later.
Proof.
  intros H0 Hne _.
  destruct (generate_report_fields st report_size H0 Hne) as (rows & Hr & HF).
  set (p := fun it : string * list float => PrimFloat.eqb (by_time_sum it) k).
  exists rows,
    (map fst (filter p (skipn (Z.to_nat report_size)
                          (Py.sorted_reverse by_time_sum (s_statistics st))))).
  split; [exact Hr|].
  assert (Hstable : filter p (Py.sorted_reverse by_time_sum (s_statistics st))
                    = filter p (s_statistics st)).
  { apply filter_stable_sort. intros x y Px Py'.
    exact (eqb_eqb_not_ltb _ _ k Px Py'). }
  rewrite <- Hstable.
  rewrite <- (firstn_skipn (Z.to_nat report_size)
                (Py.sorted_reverse by_time_sum (s_statistics st))) at 1.
  rewrite filter_app, map_app. f_equal.
  unfold Py.nlargest in HF.
  apply (Forall2_filter_map _ p (fun r => PrimFloat.eqb (time_sum r) k) fst url)
    in HF; [exact HF|].
  intros it r (_ & Hu & _ & _ & Hs & _). unfold p, by_time_sum.
  rewrite Hs. auto.
Qed.

(** X17 for three URLs of which two tie, with room for two rows. *)
Lemma report_keeps_dict_order_among_ties_witness :
  let st := {| s_statistics := [("/a", [1]); ("/b", [2]); ("/c", [0.5; 0.5])]%float;
               s_total_time := 4 |} in
  PrimFloat.eqb (s_total_time st) 0 = false /\
  times_nonempty (s_statistics st) /\
  Forall (fun it => FloatKey.is_number (by_time_sum it)) (s_statistics st) /\
  exists rows later,
    fst (generate_report 2 st) = Return rows /\
    map fst (filter (fun it => PrimFloat.eqb (by_time_sum it) 1) (s_statistics st))
    = map url (filter (fun r => PrimFloat.eqb (time_sum r) 1) rows) ++ later.
Proof.
  intros st.
  assert (H0 : PrimFloat.eqb (s_total_time st) 0 = false) by reflexivity.
  assert (Hne : times_nonempty (s_statistics st))
    by (repeat constructor; discriminate).
  assert (Hnum : Forall (fun it => FloatKey.is_number (by_time_sum it))
                   (s_statistics st))
    by (repeat constructor).
  split; [exact H0|]. split; [exact Hne|]. split; [exact Hnum|].
  exact (report_keeps_dict_order_among_ties st 2 1%float H0 Hne Hnum).
Defined.

(** ** From the log to the report *)

Lemma times_of_in d u ts :
  NoDup (map fst d) -> In (u, ts) d -> times_of d u = ts.
Proof.
  induction d as [|[k vs] d IH]; intros Hnd Hin; [inversion Hin|].
  cbn [map fst] in Hnd. apply NoDup_cons_iff in Hnd as [Hk Hnd].
  cbn [times_of]. destruct Hin as [[= -> ->]|Hin].
  - now rewrite String.eqb_refl.
  - destruct (String.eqb k u) eqn:E; [|now apply IH].
    apply String.eqb_eq in E. subst k. exfalso. apply Hk.
    change u with (fst (u, ts)). now apply in_map.
Qed.

(** X18: [generate_report] accepts whatever [process_logs] returns with a
    [total_time] that is not zero: the report has
    [min(report_size, number of URLs)] rows for a [report_size >= 0], and
    the [count] of every row is the number of accepted lines with the row's
    URL, at least one. *)
Theorem report_of_aggregated_log logs w stats total report_size :
  fst (process_logs logs w) = Return (stats, total) ->
  PrimFloat.eqb total 0 = false ->
  exists rows,
    fst (generate_report report_size
           {| s_statistics := stats; s_total_time := total |}) = Return rows /\
    List.length rows = Nat.min (Z.to_nat report_size) (List.length stats) /\
    Forall (fun r =>
              count r
              = List.length (filter (fun p => String.eqb (pl_url p) (url r))
                               (accepted logs)) /\
              (1 <= count r)%nat)
           rows.
Proof.
  intros Hproc H0.
  destruct (process_logs_well_formed logs w stats total Hproc) as [Hnd Hne].
  set (st := {| s_statistics := stats; s_total_time := total |}).
  destruct (generate_report_fields st report_size H0 Hne) as (rows & Hr & HF).
  exists rows. split; [exact Hr|]. split.
  - rewrite <- (Forall2_length_eq _ _ _ HF). apply nlargest_length.
  - destruct (process_logs_returns logs w stats total Hproc) as [Hstats _].
    cbn zeta in Hstats.
    assert (Hin : Forall (fun it => In it stats)
                    (Py.nlargest report_size by_time_sum (s_statistics st))).
    { apply Forall_forall. intros it Hit. now apply nlargest_incl in Hit. }
    clear Hr. induction HF as [|[u ts] r l l' (Ht & Hu & Hc & _) _ IH];
      [constructor|].
    apply Forall_cons_iff in Hin as [Hit Hin]. constructor; [|now apply IH].
    cbn [fst snd] in *. rewrite Hc, Hu. split.
    + rewrite <- (times_of_in stats u ts Hnd Hit). rewrite Hstats.
      rewrite times_of_fold. cbn [statistics times_of app].
      now rewrite length_map.
    + destruct ts; [congruence|]. simpl. lia.
Qed.

(** X18 for a log of one well-formed line. *)
Lemma report_of_aggregated_log_witness :
  fst (process_logs [Str sample_line] (start gzip_log_fs))
  = Return ([("/api/v2/banner", [0.390%float])], 0.390%float) /\
  PrimFloat.eqb 0.390 0 = false /\
  exists rows,
    fst (generate_report 1000
           {| s_statistics := [("/api/v2/banner", [0.390%float])];
              s_total_time := 0.390 |}) = Return rows /\
    List.length rows
    = Nat.min (Z.to_nat 1000) (List.length [("/api/v2/banner", [0.390%float])]) /\
    Forall (fun r =>
              count r
              = List.length (filter (fun p => String.eqb (pl_url p) (url r))
                               (accepted [Str sample_line])) /\
              (1 <= count r)%nat)
           rows.
Proof.
  assert (H : fst (process_logs [Str sample_line] (start gzip_log_fs))
              = Return ([("/api/v2/banner", [0.390%float])], 0.390%float))
    by (vm_compute; reflexivity).
  assert (H0 : PrimFloat.eqb 0.390 0 = false) by reflexivity.
  split; [exact H|]. split; [exact H0|].
  exact (report_of_aggregated_log _ (start gzip_log_fs) _ _ 1000 H H0).
Defined.

(** ** What [main] does to the world *)

Lemma keeps_bind {A B} (m : IO A) (k : A -> IO B) :
  keeps m -> (forall a, keeps (k a)) -> keeps (St.bind m k).
Proof.
  intros Hm Hk w. unfold St.bind. specialize (Hm w).
  destruct (m w) as [[a|e] w1]; cbn [snd] in *; [|exact Hm].
  rewrite <- Hm. apply Hk.
Qed.

Lemma keeps_writes {A} (m : IO A) : keeps m -> writes_at_most_one m.
Proof. intros Hm w. left. apply Hm. Qed.

Lemma writes_bind {A B} (m : IO A) (k : A -> IO B) :
  keeps m -> (forall a, writes_at_most_one (k a)) ->
  writes_at_most_one (St.bind m k).
Proof.
  intros Hm Hk w. unfold St.bind. specialize (Hm w).
  destruct (m w) as [[a|e] w1]; cbn [fst snd] in *.
  - rewrite <- Hm. apply Hk.
  - now left.
Qed.

Lemma keeps_gets {A} (f : world -> A) : keeps (St.gets f).
Proof. intros w. reflexivity. Qed.

Lemma keeps_lift {A} (r : result A) : keeps (St.lift r).
Proof. intros w. reflexivity. Qed.

Lemma keeps_logging_error r : keeps (logging_error r).
Proof. intros w. reflexivity. Qed.

Lemma keeps_main_config args : keeps (main_config args).
Proof. intros w. apply main_config_keeps. Qed.

Lemma keeps_setup_logging p : keeps (setup_logging p).
Proof. intros w. apply (setup_logging_keeps p w). Qed.

Lemma keeps_get_latest_log_file d : keeps (get_latest_log_file d).
Proof.
  unfold get_latest_log_file. apply keeps_bind; [apply keeps_gets|]. intros fs.
  destruct (listdir fs d) as [names|]; [|intros w; reflexivity].
  destruct (filter _ names).
  - apply keeps_bind; [apply keeps_logging_error|]. intros _ w. reflexivity.
  - apply keeps_bind; [apply keeps_lift|]. intros m w. reflexivity.
Qed.

Lemma keeps_read_log_file p : keeps (read_log_file p).
Proof.
  unfold read_log_file. apply keeps_bind; [apply keeps_gets|]. intros fs.
  destruct (file_bytes fs p); [|intros w; reflexivity].
  destruct (PyStr.endswith p ".gz"); [|intros w; reflexivity].
  apply keeps_bind; [apply keeps_lift|]. intros lines w. reflexivity.
Qed.

Lemma keeps_process_logs logs : keeps (process_logs logs).
Proof.
  intros w. rewrite process_logs_run.
  destruct (Py.int_truediv _ _) as [rate|]; [|reflexivity].
  destruct (PrimFloat.ltb _ rate); reflexivity.
Qed.

Lemma writes_save_report data path : writes_at_most_one (save_report data path).
Proof.
  intros w. unfold save_report, St.bind, St.gets. cbn.
  destruct (write_error (w_fs w) path); cbn; [now left|].
  right. split; [reflexivity|]. eauto.
Qed.

Lemma writes_main args : writes_at_most_one (main args).
Proof.
  unfold main.
  apply writes_bind; [apply keeps_main_config|]. intros _.
  apply writes_bind; [apply keeps_gets|]. intros logging_path.
  apply writes_bind; [apply keeps_setup_logging|]. intros _.
  apply writes_bind; [apply keeps_gets|]. intros log_dir.
  apply writes_bind; [apply keeps_get_latest_log_file|]. intros [name|];
    [|apply keeps_writes, keeps_logging_error].
  destruct (String.eqb name ""); [apply keeps_writes, keeps_logging_error|].
  apply writes_bind; [apply keeps_gets|]. intros log_dir'.
  apply writes_bind; [apply keeps_read_log_file|]. intros logs.
  apply writes_bind; [apply keeps_process_logs|]. intros [stats total].
  apply writes_bind; [apply keeps_gets|]. intros report_size.
  apply writes_bind; [apply keeps_lift|]. intros report_data.
  apply writes_bind; [apply keeps_gets|]. intros report_dir.
  apply writes_save_report.
Qed.

(** X19: a run of [main] writes at most one report, as its last step and
    only when it ends normally; a run that ends with an exception, be it
    from the configuration, from setting up the logging, from listing or
    reading the log, from the aggregation, from building the report or from
    opening the report file, has written none. *)
Theorem main_writes_at_most_one_report args w :
  let w' := snd (main args w) in
  (w_reports w' = w_reports w \/
   (fst (main args w) = Return tt /\
    exists path data, w_reports w' = w_reports w ++ [(path, data)])) /\
  (forall e, fst (main args w) = Raise e -> w_reports w' = w_reports w).
Proof.
  cbn zeta. destruct (writes_main args w) as [R|[Hr (path & data & R)]].
  - split; auto.
  - destruct (fst (main args w)) as [[]|e] eqn:E; [|discriminate].
    split; [right; eauto|discriminate].
Qed.

(** ** The name of the report *)

(** X20: the token that [main] cuts out of the log's name with [[17:27]]
    begins two characters before the end of the prefix
    [nginx-access-ui.log]: for a name that continues the prefix with at
    least eight characters it is [og] followed by the first eight of them,
    so that of a date written as [-YYYYMMDD] the last digit is lost. *)
Theorem report_name_token rest :
  (8 <= String.length rest)%nat ->
  PyStr.slice 17 27 (String.append "nginx-access-ui.log" rest)
  = String.append "og" (substring 0 8 rest).
Proof.
  intros H. unfold PyStr.slice.
  assert (L : String.length (String.append "nginx-access-ui.log" rest)
              = (19 + String.length rest)%nat) by reflexivity.
  rewrite L. rewrite (Nat.min_l 17), (Nat.min_l 27) by lia.
  reflexivity.
Qed.

(** X20 for the log of 30 June 2017. *)
Lemma report_name_token_witness :
  (8 <= String.length "-20170630.gz")%nat /\
  PyStr.slice 17 27 (String.append "nginx-access-ui.log" "-20170630.gz")
  = String.append "og" (substring 0 8 "-20170630.gz").
Proof.
  assert (H : (8 <= String.length "-20170630.gz")%nat) by (simpl; lia).
  split; [exact H|].
  exact (report_name_token "-20170630.gz" H).
Defined.

(** ** More about the parser and the report *)

(** X21: the URL that [parse_log_line] returns is the eighth field of the
    line and contains no space. *)
Theorem parse_log_line_url_has_no_space s parsed :
  parse_log_line (Str s) = Return parsed ->
  nth_error (PyStr.split_space s) 7 = Some (pl_url parsed) /\
  ~ In " "%char (list_ascii_of_string (pl_url parsed)).
Proof.
  rewrite parse_log_line_run. cbn zeta.
  destruct (nth_error (PyStr.split_space s) 7) as [u|] eqn:E; [|discriminate].
  destruct (PyFloat.float _); [|discriminate]. intros [= <-]. cbn [pl_url].
  split; [reflexivity|].
  pose proof (split_space_no_space s) as H. rewrite Forall_forall in H.
  apply H. eapply nth_error_In, E.
Qed.

(** X21 for the sample line. *)
Lemma parse_log_line_url_has_no_space_witness :
  parse_log_line (Str sample_line)
  = Return {| pl_url := "/api/v2/banner"; pl_request_time := 0.390 |} /\
  nth_error (PyStr.split_space sample_line) 7 = Some "/api/v2/banner" /\
  ~ In " "%char (list_ascii_of_string "/api/v2/banner").
Proof.
  assert (H : parse_log_line (Str sample_line)
              = Return {| pl_url := "/api/v2/banner"; pl_request_time := 0.390 |})
    by (vm_compute; reflexivity).
  split; [exact H|].
  exact (parse_log_line_url_has_no_space sample_line _ H).
Defined.

Lemma traverse_firstn {A B} (f : A -> result B) l ys k :
  traverse f l = Return ys -> traverse f (firstn k l) = Return (firstn k ys).
Proof.
  revert ys k. induction l as [|x l IH]; intros ys k H.
  - injection H as <-. now rewrite !firstn_nil.
  - cbn [traverse] in H. destruct (f x) as [y|] eqn:Ex; [|discriminate].
    destruct (traverse f l) as [ys'|] eqn:El; [|discriminate].
    injection H as <-. destruct k as [|k]; [reflexivity|].
    cbn [firstn traverse]. now rewrite Ex, (IH ys' k eq_refl).
Qed.

(** X22: when the time sums are numbers, a shorter report is the
    beginning of a longer one: if the report of size [m] is built, the
    report of any size [n <= m] is built too and consists of its first [n]
    rows. *)
Theorem smaller_report_is_prefix st n m rows :
  (n <= m)%Z ->
  Forall (fun it => FloatKey.is_number (by_time_sum it)) (s_statistics st) ->
  fst (generate_report m st) = Return rows ->
  fst (generate_report n st) = Return (firstn (Z.to_nat n) rows).
Proof.
  intros Hnm _. rewrite !generate_report_run. cbn [fst]. intros H.
  unfold Py.nlargest in *.
  replace (Z.to_nat n) with (Nat.min (Z.to_nat n) (Z.to_nat m)) at 1 by lia.
  rewrite <- firstn_firstn. now apply traverse_firstn.
Qed.

(** X22 at [two_urls], for the sizes 1 and 2. *)
Lemma smaller_report_is_prefix_witness :
  (1 <= 2)%Z /\
  Forall (fun it => FloatKey.is_number (by_time_sum it)) (s_statistics two_urls) /\
  fst (generate_report 2 two_urls)
  = Return [{| url := "/a"; count := 2; count_perc := 1; time_sum := 1;
               time_perc := 1 / 1.5; time_avg := 0.5; time_max := 0.75;
               time_med := 0.75 |};
            {| url := "/b"; count := 1; count_perc := 0.5; time_sum := 0.5;
               time_perc := 0.5 / 1.5; time_avg := 0.5; time_max := 0.5;
               time_med := 0.5 |}]%float /\
  fst (generate_report 1 two_urls)
  = Return (firstn (Z.to_nat 1)
      [{| url := "/a"; count := 2; count_perc := 1; time_sum := 1;
          time_perc := 1 / 1.5; time_avg := 0.5; time_max := 0.75;
          time_med := 0.75 |};
       {| url := "/b"; count := 1; count_perc := 0.5; time_sum := 0.5;
          time_perc := 0.5 / 1.5; time_avg := 0.5; time_max := 0.5;
          time_med := 0.5 |}]%float).
Proof.
  assert (Hnm : (1 <= 2)%Z) by lia.
  assert (H : fst (generate_report 2 two_urls)
              = Return [{| url := "/a"; count := 2; count_perc := 1; time_sum := 1;
                           time_perc := 1 / 1.5; time_avg := 0.5; time_max := 0.75;
                           time_med := 0.75 |};
                        {| url := "/b"; count := 1; count_perc := 0.5;
                           time_sum := 0.5; time_perc := 0.5 / 1.5;
                           time_avg := 0.5; time_max := 0.5;
                           time_med := 0.5 |}]%float)
    by (vm_compute; reflexivity).
  assert (Hnum : Forall (fun it => FloatKey.is_number (by_time_sum it))
                   (s_statistics two_urls))
    by (repeat constructor).
  split; [exact Hnm|]. split; [exact Hnum|]. split; [exact H|].
  exact (smaller_report_is_prefix two_urls 1 2 _ Hnm Hnum H).
Defined.

Lemma NoDup_firstn {A} k (l : list A) : NoDup l -> NoDup (firstn k l).
Proof.
  intros H. rewrite <- (firstn_skipn k l) in H.
  now apply NoDup_app_remove_r in H.
Qed.

(** X23: whenever a report is built from a dict, no URL has two rows, and
    every row belongs to a URL of the dict. *)
Theorem report_urls_distinct st report_size rows :
  NoDup (map fst (s_statistics st)) ->
  fst (generate_report report_size st) = Return rows ->
  NoDup (map url rows) /\
  Forall (fun r => In (url r) (map fst (s_statistics st))) rows.
Proof.
  intros Hnd. rewrite generate_report_run. cbn [fst]. intros H.
  assert (Hurls : map url rows
                  = map fst (Py.nlargest report_size by_time_sum (s_statistics st))).
  { revert rows H.
    induction (Py.nlargest report_size by_time_sum (s_statistics st))
      as [|[u ts] l IH]; intros rows H.
    - now injection H as <-.
    - cbn [traverse] in H.
      destruct (fst (url_stats_of (u, ts) st)) as [r|] eqn:Er; [|discriminate].
      destruct (traverse _ l) as [rs|]; [|discriminate].
      injection H as <-. cbn [map fst]. rewrite (IH rs eq_refl). f_equal.
      unfold url_stats_of, St.bind, St.gets, St.lift, St.ret in Er.
      destruct (Py.int_truediv _ _); [|discriminate].
      destruct (Py.truediv _ _); [|discriminate].
      destruct (Py.truediv_int _ _); [|discriminate].
      destruct (Py.max _); [|discriminate].
      destruct (Py.index _ _); [|discriminate].
      cbn in Er. now injection Er as <-. }
  rewrite Hurls. unfold Py.nlargest, Py.sorted_reverse. split.
  - rewrite <- firstn_map. apply NoDup_firstn.
    eapply Permutation_NoDup; [|exact Hnd].
    apply Permutation_map. symmetry. apply stable_sort_perm.
  - apply Forall_forall. intros r Hr.
    assert (Hin : In (url r) (map url rows)) by now apply in_map.
    rewrite Hurls in Hin. apply in_map_iff in Hin as (it & <- & Hit).
    apply in_map. now apply nlargest_incl in Hit.
Qed.

(** X23 at [two_urls]. *)
Lemma report_urls_distinct_witness :
  NoDup (map fst (s_statistics two_urls)) /\
  fst (generate_report 1 two_urls)
  = Return [{| url := "/a"; count := 2; count_perc := 1; time_sum := 1;
               time_perc := 1 / 1.5; time_avg := 0.5; time_max := 0.75;
               time_med := 0.75 |}]%float /\
  NoDup (map url [{| url := "/a"; count := 2; count_perc := 1; time_sum := 1;
                     time_perc := (1 / 1.5)%float; time_avg := 0.5;
                     time_max := 0.75; time_med := 0.75 |}]%float) /\
  Forall (fun r => In (url r) (map fst (s_statistics two_urls)))
    [{| url := "/a"; count := 2; count_perc := 1; time_sum := 1;
        time_perc := (1 / 1.5)%float; time_avg := 0.5; time_max := 0.75;
        time_med := 0.75 |}]%float.
Proof.
  assert (Hnd : NoDup (map fst (s_statistics two_urls))).
  { repeat constructor; simpl; intuition discriminate. }
  assert (H : fst (generate_report 1 two_urls)
              = Return [{| url := "/a"; count := 2; count_perc := 1; time_sum := 1;
                           time_perc := 1 / 1.5; time_avg := 0.5; time_max := 0.75;
                           time_med := 0.75 |}]%float)
    by (vm_compute; reflexivity).
  split; [exact Hnd|]. split; [exact H|].
  exact (report_urls_distinct two_urls 1 _ Hnd H).
Defined.
